(** * Service layer of the catalog backend

    A shallow embedding of [BaseService], [ProductService] and of the
    [register] handler of [UserController], with the properties of the
    specification stated over it.

    - JavaScript numbers are IEEE 754 binary64 values ([spec_float] with
      precision 53 and maximal exponent 1024, round to nearest even).
    - A Mongoose collection is the list of its documents in natural order.
    - An [async] function is a function to a settled promise
      ([Fulfilled] or [Rejected]) together with the collection it leaves. *)

From Stdlib Require Import ZArith List String Ascii Bool Lia.
From Stdlib Require Import Floats.SpecFloat.
From stdpp Require Import base option list gmap strings.

Local Open Scope string_scope.

(** ** The JavaScript fragment the services use *)

Module Js.

(** *** Numbers *)

Definition number : Type := spec_float.

Definition NaN : number := S754_nan.
Definition add : number -> number -> number := SFadd 53 1024.
Definition div : number -> number -> number := SFdiv 53 1024.

(** The number denoted by an integer literal (or by an array length). *)
Definition of_Z (z : Z) : number := binary_normalize 53 1024 z 0 false.
Definition of_nat (n : nat) : number := of_Z (Z.of_nat n).

Definition isNaN (x : number) : bool :=
  match x with S754_nan => true | _ => false end.

(** The value [m * 10 ^ e] of a decimal literal, rounded once. *)
Definition of_decimal (neg : bool) (m : N) (e : Z) : number :=
  match m with
  | N0 => S754_zero neg
  | Npos p =>
      match e with
      | Zneg k =>
          SFdiv 53 1024 (S754_finite neg p 0) (S754_finite false (Pos.pow 10 k) 0)
      | _ =>
          binary_normalize 53 1024
            (if neg then Z.neg (p * Z.to_pos (10 ^ e)) else Z.pos (p * Z.to_pos (10 ^ e)))
            0 false
      end
  end.

(** *** Primitive values and [Number(v)] *)

Inductive primitive :=
| undefined
| null
| boolean (b : bool)
| num (n : number)
| str (s : string).

(** Strings are UTF-8 encoded. The white space of [StringToNumber] is
    TAB, LF, VT, FF, CR and SP, which take one byte; U+00A0, which takes
    two; and U+1680, U+2000 to U+200A, U+2028, U+2029, U+202F, U+205F,
    U+3000 and U+FEFF, which take three. *)
Definition is_white (a : ascii) : bool :=
  let n := nat_of_ascii a in
  ((9 <=? n) && (n <=? 13))%nat || (n =? 32)%nat.

Definition is_white2 (a b : ascii) : bool :=
  ((nat_of_ascii a =? 194) && (nat_of_ascii b =? 160))%nat.

Definition is_white3 (a b c : ascii) : bool :=
  let x := nat_of_ascii a in
  let y := nat_of_ascii b in
  let z := nat_of_ascii c in
  ((x =? 225) && (y =? 154) && (z =? 128))%nat ||
  ((x =? 226) && (y =? 128) &&
   (((128 <=? z) && (z <=? 138)) || (z =? 168) || (z =? 169) || (z =? 175)))%nat ||
  ((x =? 226) && (y =? 129) && (z =? 159))%nat ||
  ((x =? 227) && (y =? 128) && (z =? 128))%nat ||
  ((x =? 239) && (y =? 187) && (z =? 191))%nat.

(** The input without the white space at its head; [backwards] when
    the input is a string read from its end. *)
Fixpoint skip_white (backwards : bool) (cs : list ascii) : list ascii :=
  match cs with
  | [] => []
  | a :: r1 =>
      if is_white a then skip_white backwards r1
      else
        match r1 with
        | [] => cs
        | b :: r2 =>
            if (if backwards then is_white2 b a else is_white2 a b)
            then skip_white backwards r2
            else
              match r2 with
              | [] => cs
              | c :: r3 =>
                  if (if backwards then is_white3 c b a else is_white3 a b c)
                  then skip_white backwards r3
                  else cs
              end
        end
  end.

Definition trim (cs : list ascii) : list ascii :=
  rev (skip_white true (rev (skip_white false cs))).

(** The value of a digit character, for radices up to 16. *)
Definition digit_val (a : ascii) : option N :=
  let n := N_of_ascii a in
  if ((48 <=? n) && (n <=? 57))%N then Some (n - 48)%N
  else if ((97 <=? n) && (n <=? 102))%N then Some (n - 87)%N
  else if ((65 <=? n) && (n <=? 70))%N then Some (n - 55)%N
  else None.

Definition digit_in (radix : N) (a : ascii) : option N :=
  match digit_val a with
  | Some d => if (d <? radix)%N then Some d else None
  | None => None
  end.

(** The longest prefix of digits, as the number it denotes after [acc],
    with the count of digits read and the rest of the input. *)
Fixpoint read_digits (radix : N) (acc : N) (count : nat) (cs : list ascii)
  : N * nat * list ascii :=
  match cs with
  | c :: cs' =>
      match digit_in radix c with
      | Some d => read_digits radix (acc * radix + d)%N (S count) cs'
      | None => (acc, count, cs)
      end
  | [] => (acc, count, [])
  end.

(** [0x], [0o] and [0b] literals: a prefix, then digits to the end. *)
Definition parse_nondecimal (cs : list ascii) : option N :=
  match cs with
  | "0"%char :: p :: ds =>
      let radix :=
        if (Ascii.eqb p "x" || Ascii.eqb p "X")%char then Some 16%N
        else if (Ascii.eqb p "o" || Ascii.eqb p "O")%char then Some 8%N
        else if (Ascii.eqb p "b" || Ascii.eqb p "B")%char then Some 2%N
        else None in
      match radix with
      | Some r =>
          match read_digits r 0 0 ds with
          | (n, S _, []) => Some n
          | _ => None
          end
      | None => None
      end
  | _ => None
  end.

Definition read_sign (cs : list ascii) : bool * list ascii :=
  match cs with
  | "-"%char :: cs' => (true, cs')
  | "+"%char :: cs' => (false, cs')
  | _ => (false, cs)
  end.

(** The exponent part, possibly absent, which must end the literal. *)
Definition parse_exponent (cs : list ascii) : option Z :=
  match cs with
  | [] => Some 0%Z
  | c :: cs' =>
      if (Ascii.eqb c "e" || Ascii.eqb c "E")%char then
        let (neg, ds) := read_sign cs' in
        match read_digits 10 0 0 ds with
        | (n, S _, []) => Some (if neg then - Z.of_N n else Z.of_N n)%Z
        | _ => None
        end
      else None
  end.

(** An unsigned decimal literal [digits [. digits] [exponent]] or
    [. digits [exponent]], as a mantissa and a power of ten. *)
Definition parse_decimal (cs : list ascii) : option (N * Z) :=
  let '(ip, ni, r1) := read_digits 10 0 0 cs in
  let '(m, nf, r2) :=
    match r1 with
    | "."%char :: r => read_digits 10 ip 0 r
    | _ => (ip, 0%nat, r1)
    end in
  match (ni + nf)%nat with
  | O => None
  | S _ =>
      match parse_exponent r2 with
      | Some e => Some (m, (e - Z.of_nat nf)%Z)
      | None => None
      end
  end.

Definition StringToNumber (s : string) : number :=
  match trim (list_ascii_of_string s) with
  | [] => S754_zero false
  | cs =>
      match parse_nondecimal cs with
      | Some n => of_Z (Z.of_N n)
      | None =>
          let (neg, body) := read_sign cs in
          if String.eqb (string_of_list_ascii body) "Infinity"
          then S754_infinity neg
          else match parse_decimal body with
               | Some (m, e) => of_decimal neg m e
               | None => NaN
               end
      end
  end.

(** [Number(v)] on a primitive value. Arrays and objects, which
    [Number] converts through their string form, are left out. *)
Definition Number (v : primitive) : number :=
  match v with
  | undefined => NaN
  | null => S754_zero false
  | boolean b => if b then of_Z 1 else S754_zero false
  | num n => n
  | str s => StringToNumber s
  end.

(** *** Exceptions and settled promises *)

Inductive exn :=
| Error (message : string)
| ReferenceError (message : string)
| StoreError (message : string)
| HeadersSentError.

Definition message (e : exn) : string :=
  match e with
  | Error m | ReferenceError m | StoreError m => m
  | HeadersSentError => "Cannot set headers after they are sent to the client"
  end.

Inductive promise (A : Type) :=
| Fulfilled (a : A)
| Rejected (e : exn).
Arguments Fulfilled {A} a.
Arguments Rejected {A} e.

(** *** Truthiness and the resolution of identifiers *)

Definition ToBoolean (v : primitive) : bool :=
  match v with
  | undefined | null => false
  | boolean b => b
  | num (S754_zero _) | num S754_nan => false
  | num _ => true
  | str s => negb (String.eqb s "")
  end.

(** What an identifier is bound to in the body of a function: a
    parameter or local holding a primitive value, or a binding of the
    enclosing module, which holds an object. *)
Inductive binding :=
| Local (v : primitive)
| ModuleObject.

Definition truthy (b : binding) : bool :=
  match b with
  | Local v => ToBoolean v
  | ModuleObject => true
  end.

(** Reading an identifier that no scope binds throws. *)
Definition resolve (locals : list (string * primitive)) (enclosing : list string)
    (x : string) : promise binding :=
  match List.find (fun b => String.eqb (fst b) x) locals with
  | Some (_, v) => Fulfilled (Local v)
  | None =>
      if existsb (String.eqb x) enclosing then Fulfilled ModuleObject
      else Rejected (ReferenceError (x ++ " is not defined"))
  end.

End Js.

Import Js.

(** ** The persistence capability: a Mongoose model over one collection *)

Module Model.

(** The calls a service makes on the store. The store may reject any of
    them (an I/O fault, a cast or validation error, a violated index). *)
Inductive call (Id Doc : Type) :=
| FindById (id : Id)
| FindOne
| Find
| CountDocuments
| Save (item : Doc)
| Remove (item : Doc).
Arguments FindById {Id Doc} id.
Arguments FindOne {Id Doc}.
Arguments Find {Id Doc}.
Arguments CountDocuments {Id Doc}.
Arguments Save {Id Doc} item.
Arguments Remove {Id Doc} item.

Section Model.
Context {Id Doc : Type} `{EqDecision Id}.

(** The identity of a document. *)
Variable _id : Doc -> Id.

(** The rejection, if any, and its message, of a call on a collection. *)
Variable rejects : list Doc -> call Id Doc -> option string.

Definition has_id (id : Id) (d : Doc) : bool := bool_decide (_id d = id).

Definition findById (c : list Doc) (id : Id) : promise (option Doc) :=
  match rejects c (FindById id) with
  | Some m => Rejected (StoreError m)
  | None => Fulfilled (List.find (has_id id) c)
  end.

Definition findOne (c : list Doc) (filter : Doc -> bool) : promise (option Doc) :=
  match rejects c FindOne with
  | Some m => Rejected (StoreError m)
  | None => Fulfilled (List.find filter c)
  end.

Definition countDocuments (c : list Doc) (query : Doc -> bool) : promise nat :=
  match rejects c CountDocuments with
  | Some m => Rejected (StoreError m)
  | None => Fulfilled (length (List.filter query c))
  end.

(** [find(query)] followed by a chain of [sort], [skip] and [limit],
    which [cursor] applies to the matching documents. *)
Definition find (c : list Doc) (query : Doc -> bool)
    (cursor : list Doc -> list Doc) : promise (list Doc) :=
  match rejects c Find with
  | Some m => Rejected (StoreError m)
  | None => Fulfilled (cursor (List.filter query c))
  end.

(** A stored document is replaced in place; a new one goes last. *)
Fixpoint put (c : list Doc) (item : Doc) : list Doc :=
  match c with
  | d :: c' => if has_id (_id item) d then item :: c' else d :: put c' item
  | [] => [item]
  end.

Definition save (c : list Doc) (item : Doc) : promise Doc * list Doc :=
  match rejects c (Save item) with
  | Some m => (Rejected (StoreError m), c)
  | None => (Fulfilled item, put c item)
  end.

Definition remove (c : list Doc) (item : Doc) : promise Doc * list Doc :=
  match rejects c (Remove item) with
  | Some m => (Rejected (StoreError m), c)
  | None => (Fulfilled item, List.filter (fun d => negb (has_id (_id item) d)) c)
  end.

End Model.

(** A store that rejects nothing. *)
Definition reliable {Id Doc : Type} (c : list Doc) (k : call Id Doc) : option string := None.

End Model.

(** ** BaseService *)

Module BaseService.
Section BaseService.
Context {Id Doc Data : Type} `{EqDecision Id}.

(** [this.model]: its name, the identity of its documents, the
    document [new this.model(data)] to be added to a collection, and
    the store behind it. *)
Variable modelName : string.
Variable _id : Doc -> Id.
Variable construct : list Doc -> Data -> Doc.
Variable rejects : list Doc -> Model.call Id Doc -> option string.

(** [Object.assign(item, data)] on the documents of the model. *)
Variable assign : Doc -> Data -> Doc.

Definition getById (c : list Doc) (id : Id) : promise (option Doc) :=
  match Model.findById _id rejects c id with
  | Fulfilled item => Fulfilled item
  | Rejected error =>
      Rejected (Error ("Error while retrieving this item : " ++ message error))
  end.

Definition create (c : list Doc) (data : Data) : promise Doc * list Doc :=
  let newItem := construct c data in
  match Model.save _id rejects c newItem with
  | (Fulfilled item, c') => (Fulfilled item, c')
  | (Rejected error, c') =>
      (Rejected (Error ("Error creating item : " ++ message error)), c')
  end.

(** The [catch] block of [update]. *)
Definition update_catch (error : exn) : exn :=
  Error ("Error on updating item : " ++ message error).

(** [item.save()] is returned without [await]: the promise of [update]
    settles as that of [save] does, outside the [try] block. *)
Definition update (c : list Doc) (id : Id) (data : Data) : promise Doc * list Doc :=
  match Model.findById _id rejects c id with
  | Rejected error => (Rejected (update_catch error), c)
  | Fulfilled None =>
      (Rejected (update_catch (Error (modelName ++ " not found"))), c)
  | Fulfilled (Some item) =>
      let item := assign item data in
      Model.save _id rejects c item
  end.

(** The [catch] block of [delete]. *)
Definition delete_catch (error : exn) : exn :=
  Error ("Error on deleting item : " ++ message error).

(** [item.remove()] is returned without [await], as in [update]. *)
Definition delete (c : list Doc) (id : Id) : promise Doc * list Doc :=
  match Model.findById _id rejects c id with
  | Rejected error => (Rejected (delete_catch error), c)
  | Fulfilled None =>
      (Rejected (delete_catch (Error (modelName ++ " not found"))), c)
  | Fulfilled (Some item) => Model.remove _id rejects c item
  end.

End BaseService.
End BaseService.

(** ** The product model *)

Module Review.
(** Modelled from the spec: the schema of a Review in [ProductModel],
    which is not part of the sources: [{name, rating, comment, user}],
    the fields [productReview] fills in. *)
Record t := mk {
  name : primitive;
  rating : number;
  comment : string;
  user : nat
}.
End Review.

Module Product.
(** Modelled from the spec: the schema of a Product in [ProductModel],
    which is not part of the sources: [{name, description, price, stock,
    image, rating, numReviews, reviews : [Review]}], with the [_id]
    every document has. *)
Record t := mk {
  _id : nat;
  name : string;
  description : string;
  price : number;
  stock : number;
  image : string;
  rating : number;
  numReviews : nat;
  reviews : list Review.t
}.

(** The value at a path of the schema that holds a primitive value;
    a document has nothing at any other path. *)
Definition get (path : string) (p : t) : option primitive :=
  if String.eqb path "name" then Some (str (name p))
  else if String.eqb path "description" then Some (str (description p))
  else if String.eqb path "price" then Some (num (price p))
  else if String.eqb path "stock" then Some (num (stock p))
  else if String.eqb path "image" then Some (str (image p))
  else if String.eqb path "rating" then Some (num (rating p))
  else if String.eqb path "numReviews" then Some (num (of_nat (numReviews p)))
  else None.
End Product.

(** ** Queries: filters and sort orders of the store *)

Module Query.

Definition lower (a : ascii) : ascii :=
  let n := nat_of_ascii a in
  if ((65 <=? n) && (n <=? 90))%nat then ascii_of_nat (n + 32) else a.

Fixpoint prefix_ci (p s : list ascii) : bool :=
  match p, s with
  | [], _ => true
  | a :: p', b :: s' => Ascii.eqb (lower a) (lower b) && prefix_ci p' s'
  | _ :: _, [] => false
  end.

Fixpoint occurs_ci (p s : list ascii) : bool :=
  prefix_ci p s ||
  match s with
  | _ :: s' => occurs_ci p s'
  | [] => false
  end.

(** [{ $regex : pattern, $options : 'i' }] for a pattern without
    operators of regular expressions: the pattern occurs in the text,
    letter case apart. *)
Definition regex_i (pattern text : string) : bool :=
  occurs_ci (list_ascii_of_string pattern) (list_ascii_of_string text).

(** The order of the store on the values at a sort path: nothing (or
    null) first, then numbers with NaN least, then strings, then
    booleans. *)
Definition rank (v : option primitive) : nat :=
  match v with
  | None | Some undefined | Some null => 0
  | Some (num _) => 1
  | Some (str _) => 2
  | Some (boolean _) => 3
  end.

Definition lt (a b : option primitive) : bool :=
  match a, b with
  | Some (num x), Some (num y) =>
      if isNaN y then false else if isNaN x then true else SFltb x y
  | Some (str x), Some (str y) =>
      match String.compare x y with Lt => true | _ => false end
  | Some (boolean x), Some (boolean y) => negb x && y
  | _, _ => (rank a <? rank b)%nat
  end.

Section Sort.
Context {Doc : Type}.
Variable key : Doc -> option primitive.

(** [d] goes before the first document whose key is not greater:
    documents with equal keys keep the order they are listed in. *)
Fixpoint insert_desc (d : Doc) (sorted : list Doc) : list Doc :=
  match sorted with
  | q :: rest => if lt (key d) (key q) then q :: insert_desc d rest else d :: sorted
  | [] => [d]
  end.

(** [.sort({ path : -1 })] *)
Definition sort_desc (l : list Doc) : list Doc := fold_right insert_desc [] l.
End Sort.

End Query.

(** ** ProductService *)

Module ProductService.

(** The authenticated user a handler passes to [productReview]. *)
Record user := { _id : nat; name : primitive }.

(** The result of [allProducts]. *)
Record listing := { products : list Product.t; page : Z; pages : Z }.

(** The bindings of the module around the class: the CommonJS wrapper
    and the declarations of the file. No scope, and nothing Node
    defines globally, binds [keyword]. *)
Definition module_scope : list string :=
  ["exports"; "require"; "module"; "__filename"; "__dirname";
   "BaseService"; "Product"; "ProductService"].

Section ProductService.
Variable rejects : list Product.t -> Model.call nat Product.t -> option string.

(** Page numbers and sizes are integers; the page arithmetic is that
    of a positive page size and page number. *)
Definition allProducts (c : list Product.t) (pageNumber pageSize : Z)
    (keywords : string) : promise listing :=
  let skip := (pageSize * (pageNumber - 1))%Z in
  match resolve [("pageNumber", num (of_Z pageNumber));
                 ("pageSize", num (of_Z pageSize));
                 ("keywords", str keywords);
                 ("skip", num (of_Z skip))] module_scope "keyword" with
  | Rejected error => Rejected error
  | Fulfilled keyword =>
      let query :=
        if truthy keyword
        then fun p => Query.regex_i keywords (Product.name p)
        else fun _ => true in
      match Model.countDocuments rejects c query with
      | Rejected error => Rejected error
      | Fulfilled count =>
          match Model.find rejects c query
                  (fun l => firstn (Z.to_nat pageSize) (skipn (Z.to_nat skip) l)) with
          | Rejected error => Rejected error
          | Fulfilled products =>
              Fulfilled {| products := products;
                           page := pageNumber;
                           pages := (- (- Z.of_nat count / pageSize))%Z |}
          end
      end
  end.

(** [r.user.toString() === user._id.toString()]: the hexadecimal
    form of an ObjectId determines it. *)
Definition reviewed_by (user : user) (r : Review.t) : bool :=
  Nat.eqb (Review.user r) (_id user).

(** [reviews.reduce((acc, item) => item.rating + acc, 0)] *)
Definition total (reviews : list Review.t) : number :=
  fold_left (fun acc item => add (Review.rating item) acc) reviews (S754_zero false).

(** [const review = { name, rating: Number(rating), comment, user }] *)
Definition new_review (user : user) (rating : primitive) (comment : string)
  : Review.t :=
  {| Review.name := name user;
     Review.rating := Number rating;
     Review.comment := comment;
     Review.user := _id user |}.

(** The product after [reviews.push(review)] and the two assignments. *)
Definition reviewed (product : Product.t) (review : Review.t) : Product.t :=
  let reviews := (Product.reviews product ++ [review])%list in
  {| Product._id := Product._id product;
     Product.name := Product.name product;
     Product.description := Product.description product;
     Product.price := Product.price product;
     Product.stock := Product.stock product;
     Product.image := Product.image product;
     Product.rating := div (total reviews) (of_nat (length reviews));
     Product.numReviews := length reviews;
     Product.reviews := reviews |}.

Definition productReview (c : list Product.t) (productId : nat) (user : user)
    (rating : primitive) (comment : string) : promise unit * list Product.t :=
  match BaseService.getById Product._id rejects c productId with
  | Rejected error => (Rejected error, c)
  | Fulfilled None => (Rejected (Error "Product not found"), c)
  | Fulfilled (Some product) =>
      match List.find (reviewed_by user) (Product.reviews product) with
      | Some alreadyReviewed => (Rejected (Error "Product already reviewed"), c)
      | None =>
          let review := new_review user rating comment in
          match Model.save Product._id rejects c (reviewed product review) with
          | (Fulfilled _, c') => (Fulfilled tt, c')
          | (Rejected error, c') => (Rejected error, c')
          end
      end
  end.

(** [Product.find({}).sort({range: -1}).limit(3)] *)
Definition topProducts (c : list Product.t) : promise (list Product.t) :=
  Model.find rejects c (fun _ => true)
    (fun l => firstn 3 (Query.sort_desc (Product.get "range") l)).

End ProductService.
End ProductService.

(** ** Plain objects: the documents and the data of a generic model *)

Module Object.

#[local] Set Warnings "-register-all".
Inductive value :=
| prim (p : primitive)
| ObjectId (n : nat)
| array (items : list value)
| object (fields : list (string * value)).
#[local] Set Warnings "register-all".

#[global] Instance number_eq_dec : EqDecision number.
Proof. unfold number. solve_decision. Defined.

#[global] Instance primitive_eq_dec : EqDecision primitive.
Proof. solve_decision. Defined.

Definition value_eq_dec : forall a b : value, {a = b} + {a <> b}.
Proof.
  fix eq_dec 1.
  intros a b; decide equality.
  - apply primitive_eq_dec.
  - apply Nat.eq_dec.
  - apply (List.list_eq_dec eq_dec).
  - apply List.list_eq_dec. intros [k v] [k' v'].
    destruct (string_dec k k'); [| right; congruence].
    destruct (eq_dec v v'); [left | right]; congruence.
Defined.

#[global] Instance value_eq : EqDecision value := value_eq_dec.

(** [o[k]]: a property that is not there reads as [undefined]. *)
Definition get (o : gmap string value) (k : string) : value :=
  default (prim undefined) (o !! k).

(** [Object.assign(target, source)]: every own property of the source
    is set on the target, whatever the target held there. *)
Definition assign (target source : gmap string value) : gmap string value :=
  source ∪ target.

Definition _id (o : gmap string value) : value := get o "_id".

End Object.

(** ** The user model *)

Module User.
(** Modelled from the spec: the schema of a User in [UserModel], which
    is not part of the sources: [{firstname, lastname, email, password,
    isAdmin}] with its [_id], the password being kept as a hash. *)
Record t := mk {
  _id : nat;
  firstname : string;
  lastname : string;
  email : string;
  password : string;
  isAdmin : bool
}.

(** The attributes [register] creates a user from. *)
Record data := {
  data_firstname : string;
  data_lastname : string;
  data_email : string;
  data_password : string
}.

Section Construct.
Variable hash : string -> string.

(** Modelled from the spec: [new User(data)] in [UserModel], which is
    not part of the sources: the user gets an [_id] no stored user has,
    its password is hashed before creation and it is no administrator. *)
Definition construct (c : list t) (d : data) : t :=
  {| _id := S (list_max (map _id c));
     firstname := data_firstname d;
     lastname := data_lastname d;
     email := data_email d;
     password := hash (data_password d);
     isAdmin := false |}.
End Construct.
End User.

(** ** UserController: the register handler *)

Module UserController.

(** The entries of the message catalogs the handler answers with. *)
Inductive text :=
| errorMessage_validations
| errorMessage_default
| errorMessage_user_firstname
| errorMessage_user_lastname
| errorMessage_user_email
| errorMessage_user_password
| errorMessage_user_already_exist
| errorMessage_user_invalid_email
| successMessage_user_created.

(** The object given to [res.json]. *)
Record payload := {
  message : text;
  data : option (list (string * Object.value))
}.

(** The response the client receives: [res.status(s).json(p)]. *)
Record response := { status : nat; json : payload }.

(** The fields of [req.body] the handler reads; one that is missing
    reads as [undefined]. *)
Record body := {
  firstname : option string;
  lastname : option string;
  email : option string;
  password : option string
}.

(** What the handler acts on: the users collection and the response. *)
Record world := { users : list User.t; sent : option response }.

(** *** Handlers thread the world and may throw *)

Definition handler (A : Type) : Type := world -> promise A * world.

Definition ret {A : Type} (a : A) : handler A := fun w => (Fulfilled a, w).

Definition bind {A B : Type} (m : handler A) (k : A -> handler B) : handler B :=
  fun w =>
    match m w with
    | (Fulfilled a, w') => k a w'
    | (Rejected e, w') => (Rejected e, w')
    end.

Definition try_catch {A : Type} (block : handler A) (catch : exn -> handler A)
  : handler A :=
  fun w =>
    match block w with
    | (Fulfilled a, w') => (Fulfilled a, w')
    | (Rejected e, w') => catch e w'
    end.

#[global] Instance handler_ret : MRet handler := @ret.
#[global] Instance handler_bind : MBind handler := fun A B k m => bind m k.

(** A call that reads the collection. *)
Definition reading {A : Type} (f : list User.t -> promise A) : handler A :=
  fun w => (f (users w), w).

(** A call that may change the collection. *)
Definition writing {A : Type} (f : list User.t -> promise A * list User.t)
  : handler A :=
  fun w => let (r, c) := f (users w) in (r, {| users := c; sent := sent w |}).

(** [res.status(s).json(p)]: the first call sends the response; a later
    one finds the headers sent and throws. *)
Definition res_json (s : nat) (p : payload) : handler unit :=
  fun w =>
    match sent w with
    | Some _ => (Rejected HeadersSentError, w)
    | None => (Fulfilled tt, {| users := users w;
                                sent := Some {| status := s; json := p |} |})
    end.

(** [!x] on a field of the body is false on a string that is not empty. *)
Definition present (x : option string) : option string :=
  match x with
  | Some s => if String.eqb s "" then None else Some s
  | None => None
  end.

Section Register.
(** [EmailHelper.isValidEmail], [generateToken], the hashing of the
    user model and the store of users are not part of the sources. *)
Variable isValidEmail : string -> bool.
Variable generateToken : nat -> string.
Variable hash : string -> string.
Variable rejects : list User.t -> Model.call nat User.t -> option string.

(** Modelled from the spec: [userService.create] of [UserService],
    which is not part of the sources: the service extends [BaseService]
    over the user model, and [create] is that of [BaseService]. *)
Definition userService_create (c : list User.t) (d : User.data)
  : promise User.t * list User.t :=
  BaseService.create User._id (User.construct hash) rejects c d.

(** The [data] of the answer to a registration. *)
Definition created_data (createdUser : User.t) : list (string * Object.value) :=
  [("_id", Object.ObjectId (User._id createdUser));
   ("firstname", Object.prim (str (User.firstname createdUser)));
   ("lastname", Object.prim (str (User.lastname createdUser)));
   ("email", Object.prim (str (User.email createdUser)));
   ("isAdmin", Object.prim (boolean (User.isAdmin createdUser)));
   ("token", Object.prim (str (generateToken (User._id createdUser))))].

Definition answer (t : text) : payload := {| message := t; data := None |}.

(** The [try] block of [register]. The answer 409 is not followed by
    a [return]; a created user is an object, hence truthy, and the
    answer 403 of the source is never given. *)
Definition register_try (firstname lastname email password : string)
  : handler unit :=
  userExists ← reading (fun c =>
    Model.findOne rejects c (fun u => String.eqb (User.email u) email));
  match userExists with
  | Some _ => res_json 409 (answer errorMessage_user_already_exist)
  | None => mret tt
  end;;
  if negb (isValidEmail email)
  then res_json 400 (answer errorMessage_user_invalid_email)
  else
    createdUser ← writing (fun c =>
      userService_create c
        {| User.data_firstname := firstname;
           User.data_lastname := lastname;
           User.data_email := email;
           User.data_password := password |});
    res_json 201 {| message := successMessage_user_created;
                    data := Some (created_data createdUser) |}.

Definition register (req_body : option body) : handler unit :=
  match req_body with
  | None => res_json 422 (answer errorMessage_validations)
  | Some b =>
      match present (firstname b) with
      | None => res_json 400 (answer errorMessage_user_firstname)
      | Some firstname =>
      match present (lastname b) with
      | None => res_json 400 (answer errorMessage_user_lastname)
      | Some lastname =>
      match present (email b) with
      | None => res_json 400 (answer errorMessage_user_email)
      | Some email =>
      match present (password b) with
      | None => res_json 400 (answer errorMessage_user_password)
      | Some password =>
          try_catch (register_try firstname lastname email password)
            (fun error => res_json 500 (answer errorMessage_default))
      end end end end
  end.

End Register.
End UserController.

(** ** The other handlers of UserController *)

Module Express.
Section Express.
Context {Store Body : Type}.

(** A request in progress: the collection behind the service and the
    response, once sent, with its status code. *)
Record exchange := { store : Store; sent : option (nat * Body) }.

Definition handler (A : Type) : Type := exchange -> promise A * exchange.

Definition ret {A : Type} (a : A) : handler A := fun w => (Fulfilled a, w).

Definition bind {A B : Type} (m : handler A) (k : A -> handler B) : handler B :=
  fun w =>
    match m w with
    | (Fulfilled a, w') => k a w'
    | (Rejected e, w') => (Rejected e, w')
    end.

Definition try_catch {A : Type} (block : handler A) (catch : exn -> handler A)
  : handler A :=
  fun w =>
    match block w with
    | (Fulfilled a, w') => (Fulfilled a, w')
    | (Rejected e, w') => catch e w'
    end.

(** A call of a service, which may change the collection. *)
Definition calling {A : Type} (f : Store -> promise A * Store) : handler A :=
  fun w => let (r, c) := f (store w) in (r, {| store := c; sent := sent w |}).

(** [res.status(s).json(b)]: the first call sends the response; a later
    one finds the headers sent and throws. *)
Definition status_json (s : nat) (b : Body) : handler unit :=
  fun w =>
    match sent w with
    | Some _ => (Rejected HeadersSentError, w)
    | None => (Fulfilled tt, {| store := store w; sent := Some (s, b) |})
    end.

(** [res.json(b)]: the status code is left at 200. *)
Definition json (b : Body) : handler unit := status_json 200 b.

End Express.

#[global] Instance handler_ret {Store Body : Type} : MRet (@handler Store Body) :=
  @ret Store Body.
#[global] Instance handler_bind {Store Body : Type} : MBind (@handler Store Body) :=
  fun A B k m => bind m k.

End Express.

Module UserRoutes.

(** The entries of the message catalogs these handlers answer with. *)
Inductive text :=
| errorMessage_default
| errorMessage_collection
| errorMessage_user_not_found
| errorMessage_user_deleted
| successMessage_user_collection_informations
| successMessage_user_informations
| successMessage_user_updated
| successMessage_user_deleted.

(** A message is an entry of a catalog or the message of a service. *)
Inductive said :=
| catalog (t : text)
| told (m : string).

(** What is given to [res.json]: [{ message }], [{ message, data }],
    a message alone or a value alone. *)
Inductive json (D : Type) :=
| message_only (m : said)
| message_data (m : said) (d : D)
| bare_message (m : said)
| bare_data (d : D).
Arguments message_only {D} m.
Arguments message_data {D} m d.
Arguments bare_message {D} m.
Arguments bare_data {D} d.

(** The result of the services of authentication and of profiles, of
    which the handlers read [status], [message], [data] and [error]. *)
Record envelope (D : Type) := {
  status : nat;
  message : string;
  data : D;
  error : bool
}.
Arguments status {D} e.
Arguments message {D} e.
Arguments data {D} e.
Arguments error {D} e.

(** What [allUsers] may resolve to, as far as [users === 0] tells. *)
Inductive listed :=
| a_number (n : number)
| some_users (l : list User.t).

(** [users === 0] *)
Definition is_zero (users : listed) : bool :=
  match users with
  | a_number (S754_zero _) => true
  | _ => false
  end.

(** The [data] of the answer of [getUserById]. *)
Definition informations (user : User.t) : list (string * Object.value) :=
  [("_id", Object.ObjectId (User._id user));
   ("firstname", Object.prim (str (User.firstname user)));
   ("lastname", Object.prim (str (User.lastname user)));
   ("email", Object.prim (str (User.email user)));
   ("isAdmin", Object.prim (boolean (User.isAdmin user)))].

Section Services.
(** The services [authentificationUser], [allUsers], [userProfile] and
    [updateUserProfile] of [UserService] are not part of the sources:
    each is given with its arguments applied, as what it makes of the
    collection. *)
Context {D P : Type}.
Variable authentificationUser : list User.t -> promise (envelope D) * list User.t.
Variable allUsers : list User.t -> promise listed * list User.t.
Variable userProfile : list User.t -> promise P * list User.t.
Variable updateUserProfile_service :
  list User.t -> promise (envelope D) * list User.t.

Definition login : @Express.handler (list User.t) (json D) unit :=
  Express.try_catch
    (authenticatedUser ← Express.calling authentificationUser;
     if error authenticatedUser
     then Express.status_json (status authenticatedUser)
            (message_only (told (message authenticatedUser)))
     else Express.status_json (status authenticatedUser)
            (message_data (told (message authenticatedUser))
               (data authenticatedUser)))
    (fun error => Express.status_json 500
                    (message_only (catalog errorMessage_default))).

(** The answer 400 is not followed by a [return]. *)
Definition getUsers : @Express.handler (list User.t) (json listed) unit :=
  Express.try_catch
    (users ← Express.calling allUsers;
     (if is_zero users
      then Express.status_json 400 (message_only (catalog errorMessage_collection))
      else mret tt);;
     Express.json (message_data
                     (catalog successMessage_user_collection_informations) users))
    (fun error => Express.status_json 500
                    (message_only (catalog errorMessage_default))).

Definition getUserProfile : @Express.handler (list User.t) (json P) unit :=
  Express.try_catch
    (profile ← Express.calling userProfile;
     Express.json (bare_data profile))
    (fun error => Express.status_json 404
                    (message_only (catalog errorMessage_default))).

(** The answer to an error of the service is the message alone, and
    is not followed by a [return]. *)
Definition updateUserProfile : @Express.handler (list User.t) (json D) unit :=
  Express.try_catch
    (updatedUserProfile ← Express.calling updateUserProfile_service;
     (if error updatedUserProfile
      then Express.status_json (status updatedUserProfile)
             (bare_message (told (message updatedUserProfile)))
      else mret tt);;
     Express.status_json (status updatedUserProfile)
       (message_data (told (message updatedUserProfile))
          (data updatedUserProfile)))
    (fun error => Express.status_json 400
                    (message_only (catalog errorMessage_default))).
End Services.

Section Records.
(** The name of the user model, [Object.assign] of a request body on a
    user and the store of users are not part of the sources;
    [UserService] extends [BaseService] over the user model. *)
Context {Data : Type}.
Variable modelName : string.
Variable assign : User.t -> Data -> User.t.
Variable rejects : list User.t -> Model.call nat User.t -> option string.

Definition getUserById (id : nat)
  : @Express.handler (list User.t) (json (list (string * Object.value))) unit :=
  Express.try_catch
    (user ← Express.calling (fun c => (BaseService.getById User._id rejects c id, c));
     match user with
     | None => Express.status_json 403
                 (message_only (catalog errorMessage_user_not_found))
     | Some user => Express.status_json 200
                      (message_data (catalog successMessage_user_informations)
                         (informations user))
     end)
    (fun error => Express.status_json 500
                    (message_only (catalog errorMessage_default))).

(** No [try] block: a rejection of [update] is that of the handler. *)
Definition updateUser (id : nat) (body : Data)
  : @Express.handler (list User.t) (json User.t) unit :=
  updated ← Express.calling (fun c =>
    BaseService.update modelName User._id rejects assign c id body);
  Express.json (message_data (catalog successMessage_user_updated) updated).

(** No [try] block either; what [delete] is fulfilled with is a
    document, hence truthy, and the answer 403 of the source is never
    given. *)
Definition deleteUser (id : nat)
  : @Express.handler (list User.t) (json User.t) unit :=
  deleted ← Express.calling (fun c =>
    BaseService.delete modelName User._id rejects c id);
  Express.json (message_data (catalog successMessage_user_deleted) deleted).
End Records.

End UserRoutes.

(** ** Notions of the specification *)

Module Spec.

(** The arithmetic mean of ratings in binary64 arithmetic: their sum,
    taken in the order of the collection, over their count. *)
Definition mean (ratings : list number) : number :=
  div (fold_left add ratings (S754_zero false)) (of_nat (length ratings)).

(** At most one review of each product by each user. *)
Definition one_review_per_user (c : list Product.t) : Prop :=
  Forall (fun p => NoDup (map Review.user (Product.reviews p))) c.

(** The ratings of a list of products, in order. *)
Definition ratings (l : list Product.t) : list number := map Product.rating l.

End Spec.

(** ** Sample collections *)

Module Sample.

Definition widget : gmap string Object.value :=
  {[ "_id" := Object.ObjectId 1;
     "name" := Object.prim (str "Widget");
     "price" := Object.prim (num (of_Z 12));
     "maker" := Object.object [("city", Object.prim (str "Lyon"));
                               ("zip", Object.prim (str "69001"))] ]}.

Definition widget_data : gmap string Object.value :=
  {[ "price" := Object.prim (num (of_Z 15));
     "maker" := Object.object [("city", Object.prim (str "Nantes"))] ]}.

(** A store that rejects every [save] with a duplicate key error. *)
Definition save_fails {Id Doc : Type} (c : list Doc) (k : Model.call Id Doc)
  : option string :=
  match k with
  | Model.Save _ => Some "E11000 duplicate key error"
  | _ => None
  end.

(** A store that rejects every [remove]. *)
Definition remove_fails {Id Doc : Type} (c : list Doc) (k : Model.call Id Doc)
  : option string :=
  match k with
  | Model.Remove _ => Some "connection closed"
  | _ => None
  end.

(** A store that rejects every [findById] with the given message. *)
Definition findById_fails {Id Doc : Type} (m : string) (c : list Doc)
    (k : Model.call Id Doc) : option string :=
  match k with
  | Model.FindById _ => Some m
  | _ => None
  end.

Definition product (id : nat) (name : string) (rating : Z) : Product.t :=
  {| Product._id := id;
     Product.name := name;
     Product.description := "";
     Product.price := of_Z 10;
     Product.stock := of_Z 1;
     Product.image := "";
     Product.rating := of_Z rating;
     Product.numReviews := 0;
     Product.reviews := [] |}.

Definition mouse : Product.t := product 7 "Wireless Mouse" 0.

Definition reviewer (id : nat) : ProductService.user :=
  {| ProductService._id := id; ProductService.name := str "Rakoto" |}.

(** A review of the product 7 by the user [id] on a reliable store. *)
Definition submit (c : list Product.t) (id : nat) (rating : primitive)
  : promise unit * list Product.t :=
  ProductService.productReview Model.reliable c 7 (reviewer id) rating "Good".

Definition alice : User.t :=
  {| User._id := 1;
     User.firstname := "Alice";
     User.lastname := "Martin";
     User.email := "alice@shop.io";
     User.password := "#secret";
     User.isAdmin := false |}.

Definition isValidEmail (s : string) : bool := Query.regex_i "@" s.
Definition generateToken (id : nat) : string := "token-" ++ String (ascii_of_nat (48 + id)) "".
Definition hash (s : string) : string := "#" ++ s.

Definition registration (email : string) : option UserController.body :=
  Some {| UserController.firstname := Some "Alice";
          UserController.lastname := Some "Martin";
          UserController.email := Some email;
          UserController.password := Some "secret" |}.

Definition start (c : list User.t) : UserController.world :=
  {| UserController.users := c; UserController.sent := None |}.

(** The answer to the registration of bob@shop.io next to [alice]. *)
Definition bob_created : UserController.payload :=
  {| UserController.message := UserController.successMessage_user_created;
     UserController.data :=
       Some (UserController.created_data generateToken
               (User.construct hash [alice]
                  {| User.data_firstname := "Alice";
                     User.data_lastname := "Martin";
                     User.data_email := "bob@shop.io";
                     User.data_password := "secret" |})) |}.

End Sample.

(** ** Further sample data *)

Module Scenario.

Definition gadget : gmap string Object.value :=
  {[ "_id" := Object.ObjectId 2;
     "name" := Object.prim (str "Gadget");
     "price" := Object.prim (num (of_Z 30)) ]}.

Definition rename : gmap string Object.value :=
  {[ "name" := Object.prim (str "Widget II") ]}.

Definition reprice : gmap string Object.value :=
  {[ "price" := Object.prim (num (of_Z 20));
     "name" := Object.prim (str "Widget III") ]}.

(** [new Model(data)] on plain objects: the data with a new [_id]. *)
Definition construct (c : list (gmap string Object.value))
    (data : gmap string Object.value) : gmap string Object.value :=
  <[ "_id" := Object.ObjectId (S (length c)) ]> data.

Definition keyboard : Product.t := Sample.product 8 "Keyboard" 0.

Definition bob : User.t :=
  {| User._id := 2;
     User.firstname := "Bob";
     User.lastname := "Durand";
     User.email := "bob@shop.io";
     User.password := "#hunter2";
     User.isAdmin := true |}.

(** A request body without a lastname. *)
Definition nameless : option UserController.body :=
  Some {| UserController.firstname := Some "Alice";
          UserController.lastname := Some "";
          UserController.email := None;
          UserController.password := Some "secret" |}.

(** The body of the registration of carol@shop.io. *)
Definition carol : UserController.body :=
  {| UserController.firstname := Some "Carol";
     UserController.lastname := Some "Petit";
     UserController.email := Some "carol@shop.io";
     UserController.password := Some "tr0ub4dor" |}.

(** The user that registration adds next to [Sample.alice]. *)
Definition carol_created : User.t :=
  User.construct Sample.hash [Sample.alice]
    {| User.data_firstname := "Carol"; User.data_lastname := "Petit";
       User.data_email := "carol@shop.io"; User.data_password := "tr0ub4dor" |}.

(** A store that rejects every [findOne]. *)
Definition findOne_fails {Id Doc : Type} (c : list Doc) (k : Model.call Id Doc)
  : option string :=
  match k with
  | Model.FindOne => Some "pool destroyed"
  | _ => None
  end.

(** A store with a unique index on the email of users: it rejects the
    save of a user whose email another stored user has. *)
Definition unique_email_store (c : list User.t) (k : Model.call nat User.t)
  : option string :=
  match k with
  | Model.Save u =>
      if existsb (fun v => String.eqb (User.email v) (User.email u)
                           && negb (Nat.eqb (User._id v) (User._id u))) c
      then Some "E11000 duplicate key error collection: users index: email_1"
      else None
  | _ => None
  end.

(** A store that validates the Number paths of a product: it rejects
    the save of a product whose rating, or the rating of one of whose
    reviews, is NaN. *)
Definition validating_store (c : list Product.t) (k : Model.call nat Product.t)
  : option string :=
  match k with
  | Model.Save p =>
      if isNaN (Product.rating p)
         || existsb (fun r => isNaN (Review.rating r)) (Product.reviews p)
      then Some "Product validation failed: Cast to Number failed for value NaN"
      else None
  | _ => None
  end.

(** The white space U+00A0, U+FEFF and U+3000, and a string of them
    around "4". *)
Definition nbsp : string := String (ascii_of_nat 194) (String (ascii_of_nat 160) "").
Definition bom : string :=
  String (ascii_of_nat 239) (String (ascii_of_nat 187) (String (ascii_of_nat 191) "")).
Definition ideographic_space : string :=
  String (ascii_of_nat 227) (String (ascii_of_nat 128) (String (ascii_of_nat 128) "")).
Definition padded_four : string := bom ++ nbsp ++ "4" ++ ideographic_space ++ nbsp.

(** A store that rejects every [find]. *)
Definition find_fails {Id Doc : Type} (c : list Doc) (k : Model.call Id Doc)
  : option string :=
  match k with
  | Model.Find => Some "pool destroyed"
  | _ => None
  end.

(** The update of a user by a body that may name a new lastname. *)
Definition relastname (u : User.t) (body : option string) : User.t :=
  match body with
  | Some l =>
      {| User._id := User._id u; User.firstname := User.firstname u;
         User.lastname := l; User.email := User.email u;
         User.password := User.password u; User.isAdmin := User.isAdmin u |}
  | None => u
  end.

Definition begin (c : list User.t) {Body : Type}
  : @Express.exchange (list User.t) Body :=
  {| Express.store := c; Express.sent := None |}.

(** Services that answer with an error, with a value, or that throw. *)
Definition refused (c : list User.t)
  : promise (UserRoutes.envelope (option string)) * list User.t :=
  (Fulfilled {| UserRoutes.status := 401; UserRoutes.message := "Invalid credentials";
                UserRoutes.data := None; UserRoutes.error := true |}, c).

Definition none_listed (c : list User.t) : promise UserRoutes.listed * list User.t :=
  (Fulfilled (UserRoutes.a_number (S754_zero false)), c).

Definition all_listed (c : list User.t) : promise UserRoutes.listed * list User.t :=
  (Fulfilled (UserRoutes.some_users c), c).

Definition profile_of (id : nat) (c : list User.t)
  : promise (option User.t) * list User.t :=
  (Fulfilled (List.find (Model.has_id User._id id) c), c).

End Scenario.

(** ** ProductService.topProducts on a store that orders ties its own way *)

Module Ranking.
Section Ranking.
(** The order in which the store lists documents before it sorts them:
    documents that tie on the sort path come out in that order, which
    the store is free to choose. *)
Variable listing : list Product.t -> list Product.t.
Variable rejects : list Product.t -> Model.call nat Product.t -> option string.

(** [Product.find({}).sort({range: -1}).limit(3)] *)
Definition topProducts (c : list Product.t) : promise (list Product.t) :=
  Model.find rejects c (fun _ => true)
    (fun l => firstn 3 (Query.sort_desc (Product.get "range") (listing l))).
End Ranking.
End Ranking.

(** ** Invariants of the collections *)

Module Invariant.

(** The derived fields of every product agree with its reviews:
    [numReviews] is their count and, when there are some, [rating] is
    the mean of their ratings. *)
Definition derived_fields_agree (c : list Product.t) : Prop :=
  Forall (fun p =>
            Product.numReviews p = length (Product.reviews p) /\
            (Product.reviews p <> [] ->
             Product.rating p = Spec.mean (map Review.rating (Product.reviews p))))
         c.

(** The answer a request body without all four fields calls for: 422
    without a body, else 400 with the message of the first of
    firstname, lastname, email and password that is missing or empty. *)
Definition incomplete (req_body : option UserController.body)
  : option (nat * UserController.text) :=
  match req_body with
  | None => Some (422%nat, UserController.errorMessage_validations)
  | Some b =>
      let missing (x : option string) :=
        match x with Some s => String.eqb s "" | None => true end in
      if missing (UserController.firstname b)
      then Some (400%nat, UserController.errorMessage_user_firstname)
      else if missing (UserController.lastname b)
      then Some (400%nat, UserController.errorMessage_user_lastname)
      else if missing (UserController.email b)
      then Some (400%nat, UserController.errorMessage_user_email)
      else if missing (UserController.password b)
      then Some (400%nat, UserController.errorMessage_user_password)
      else None
  end.

(** Modelled from the spec: the unique index on the email of the user
    schema in [UserModel], which is not part of the sources (email is
    unique, and the persistence layer enforces that uniqueness): the
    store rejects the save of a user whose email another stored user
    has. *)
Definition unique_email
    (rejects : list User.t -> Model.call nat User.t -> option string) : Prop :=
  forall c u v,
    In v c -> User.email v = User.email u -> User._id v <> User._id u ->
    rejects c (Model.Save u) <> None.

(** Modelled from the spec: the Number paths of the product schema in
    [ProductModel], which is not part of the sources (the rating of a
    product and the rating of a review are numbers): the store rejects
    the save of a product that holds NaN at one of them. *)
Definition number_paths
    (rejects : list Product.t -> Model.call nat Product.t -> option string) : Prop :=
  forall c p,
    isNaN (Product.rating p) = true \/
    Exists (fun r => isNaN (Review.rating r) = true) (Product.reviews p) ->
    rejects c (Model.Save p) <> None.

(** The string of the decimal digits [ds], and the number they denote. *)
Definition digit_char (d : N) : ascii := ascii_of_N (48 + d).
Definition numeral (ds : list N) : string :=
  string_of_list_ascii (map digit_char ds).
Definition numeral_value (ds : list N) : N :=
  fold_left (fun acc d => (acc * 10 + d)%N) ds 0%N.

(** The [catch] block of [register]. *)
Definition on_error : exn -> UserController.handler unit :=
  fun error =>
    UserController.res_json 500
      (UserController.answer UserController.errorMessage_default).

End Invariant.

(** ** Facts on the store *)

Section ModelFacts.
Context {Id Doc : Type} `{EqDecision Id}.
Variable _id : Doc -> Id.

Lemma has_id_true id d : Model.has_id _id id d = true <-> _id d = id.
Proof. unfold Model.has_id. apply bool_decide_eq_true. Qed.

Lemma find_absent (c : list Doc) id :
  Forall (fun d => _id d <> id) c -> List.find (Model.has_id _id id) c = None.
Proof.
  induction 1 as [| d c Hd _ IH]; simpl; [reflexivity |].
  destruct (Model.has_id _id id d) eqn:E; [| exact IH].
  apply has_id_true in E. contradiction.
Qed.

Lemma find_has_id (c : list Doc) id d :
  List.find (Model.has_id _id id) c = Some d -> _id d = id.
Proof.
  intros Hf. apply List.find_some in Hf as [_ Hf]. now apply has_id_true.
Qed.

Lemma find_put (c : list Doc) item :
  List.find (Model.has_id _id (_id item)) (Model.put _id c item) = Some item.
Proof.
  assert (Hself : Model.has_id _id (_id item) item = true) by now apply has_id_true.
  induction c as [| d c IH]; simpl.
  - now rewrite Hself.
  - destruct (Model.has_id _id (_id item) d) eqn:E; simpl.
    + now rewrite Hself.
    + now rewrite E.
Qed.

Lemma Forall_put (P : Doc -> Prop) (c : list Doc) item :
  Forall P c -> P item -> Forall P (Model.put _id c item).
Proof.
  intros Hc Hitem. induction Hc as [| d c Hd Hc IH]; simpl.
  - now constructor.
  - destruct (Model.has_id _id (_id item) d); now constructor.
Qed.
End ModelFacts.

(** ** BaseService: absent records and rejected store calls *)

Section BaseServiceFacts.
Context {Id Doc Data : Type} `{EqDecision Id}.
Variable modelName : string.
Variable _id : Doc -> Id.
Variable construct : list Doc -> Data -> Doc.
Variable rejects : list Doc -> Model.call Id Doc -> option string.
Variable assign : Doc -> Data -> Doc.

Lemma findById_absent (c : list Doc) id :
  rejects c (Model.FindById id) = None ->
  Forall (fun d => _id d <> id) c ->
  Model.findById _id rejects c id = Fulfilled None.
Proof.
  intros Hread Habsent. unfold Model.findById.
  rewrite Hread. now rewrite find_absent.
Qed.

(** C4, as the code has it: for an id that no record of the
    collection has, [getById] is fulfilled with null and raises
    nothing, while [update] and [delete] reject with the error their
    [catch] block builds, the wrapper of the operation followed by
    "<modelName> not found", and leave the collection as it was. *)
Theorem absent_record (c : list Doc) (id : Id) (data : Data) :
  rejects c (Model.FindById id) = None ->
  Forall (fun d => _id d <> id) c ->
  BaseService.getById _id rejects c id = Fulfilled None /\
  BaseService.update modelName _id rejects assign c id data
    = (Rejected (Error ("Error on updating item : " ++ modelName ++ " not found")), c) /\
  BaseService.delete modelName _id rejects c id
    = (Rejected (Error ("Error on deleting item : " ++ modelName ++ " not found")), c).
Proof.
  intros Hread Habsent.
  pose proof (findById_absent c id Hread Habsent) as Hfind.
  unfold BaseService.getById, BaseService.update, BaseService.delete.
  rewrite Hfind. repeat split; reflexivity.
Qed.

(** A rejected read is wrapped by each of the four operations. *)
Lemma read_rejection_wrapped (c : list Doc) (id : Id) (data : Data) (m : string) :
  rejects c (Model.FindById id) = Some m ->
  BaseService.getById _id rejects c id
    = Rejected (Error ("Error while retrieving this item : " ++ m)) /\
  BaseService.update modelName _id rejects assign c id data
    = (Rejected (Error ("Error on updating item : " ++ m)), c) /\
  BaseService.delete modelName _id rejects c id
    = (Rejected (Error ("Error on deleting item : " ++ m)), c).
Proof.
  intros Hread.
  unfold BaseService.getById, BaseService.update, BaseService.delete, Model.findById.
  rewrite Hread. repeat split; reflexivity.
Qed.

(** [create] awaits [save] inside its [try] block: a rejection is wrapped. *)
Lemma create_rejection_wrapped (c : list Doc) (data : Data) (m : string) :
  rejects c (Model.Save (construct c data)) = Some m ->
  BaseService.create _id construct rejects c data
    = (Rejected (Error ("Error creating item : " ++ m)), c).
Proof.
  intros Hsave. unfold BaseService.create, Model.save. now rewrite Hsave.
Qed.

(** [update] does not await [save]: its rejection is that of the store. *)
Lemma update_save_rejection (c : list Doc) (id : Id) (data : Data) item (m : string) :
  Model.findById _id rejects c id = Fulfilled (Some item) ->
  rejects c (Model.Save (assign item data)) = Some m ->
  BaseService.update modelName _id rejects assign c id data
    = (Rejected (StoreError m), c).
Proof.
  intros Hfind Hsave. unfold BaseService.update, Model.save.
  now rewrite Hfind, Hsave.
Qed.

(** [delete] does not await [remove] either. *)
Lemma delete_remove_rejection (c : list Doc) (id : Id) item (m : string) :
  Model.findById _id rejects c id = Fulfilled (Some item) ->
  rejects c (Model.Remove item) = Some m ->
  BaseService.delete modelName _id rejects c id = (Rejected (StoreError m), c).
Proof.
  intros Hfind Hremove. unfold BaseService.delete, Model.remove.
  now rewrite Hfind, Hremove.
Qed.
End BaseServiceFacts.

Lemma absent_record_witness :
  BaseService.getById Product._id Model.reliable [Sample.mouse] 8 = Fulfilled None /\
  BaseService.update "Product" Product._id Model.reliable (fun p (_ : unit) => p)
      [Sample.mouse] 8 tt
    = (Rejected (Error "Error on updating item : Product not found"), [Sample.mouse]) /\
  BaseService.delete "Product" Product._id Model.reliable [Sample.mouse] 8
    = (Rejected (Error "Error on deleting item : Product not found"), [Sample.mouse]).
Proof.
  apply (absent_record "Product" Product._id Model.reliable (fun p (_ : unit) => p)
           [Sample.mouse] 8 tt).
  - reflexivity.
  - repeat constructor. simpl. lia.
Defined.

(** C4, as stated, fails: on a reliable store without the record,
    [update] and [delete] raise the very error they raise when the
    store rejects the read with the cause "Item not found", that is,
    the generic wrapped store error. *)
Lemma update_of_missing_is_wrapped_error :
  BaseService.update "Item" Object._id Model.reliable Object.assign
      [] (Object.ObjectId 1) Sample.widget_data
    = (Rejected (BaseService.update_catch (StoreError "Item not found")), []) /\
  BaseService.update "Item" Object._id Model.reliable Object.assign
      [] (Object.ObjectId 1) Sample.widget_data
    = BaseService.update "Item" Object._id (Sample.findById_fails "Item not found")
        Object.assign [] (Object.ObjectId 1) Sample.widget_data /\
  BaseService.delete "Item" Object._id Model.reliable [] (Object.ObjectId 1)
    = BaseService.delete "Item" Object._id (Sample.findById_fails "Item not found")
        [] (Object.ObjectId 1).
Proof. repeat split; reflexivity. Qed.

(** C5 fails on the code: when the store rejects the [save] of
    [update], or the [remove] of [delete], the operation rejects with
    the error of the store itself and not with the error of its [catch]
    block. *)
Theorem write_rejection_escapes :
  BaseService.update "Item" Object._id Sample.save_fails Object.assign
      [Sample.widget] (Object.ObjectId 1) Sample.widget_data
    = (Rejected (StoreError "E11000 duplicate key error"), [Sample.widget]) /\
  message (StoreError "E11000 duplicate key error")
    <> message (BaseService.update_catch (StoreError "E11000 duplicate key error")) /\
  BaseService.delete "Item" Object._id Sample.remove_fails
      [Sample.widget] (Object.ObjectId 1)
    = (Rejected (StoreError "connection closed"), [Sample.widget]) /\
  message (StoreError "connection closed")
    <> message (BaseService.delete_catch (StoreError "connection closed")).
Proof.
  split; [vm_compute; reflexivity |].
  split; [simpl; discriminate |].
  split; [vm_compute; reflexivity | simpl; discriminate].
Qed.

(** ** BaseService.update: the fields of a record after an update *)

Section UpdateFields.
Variable modelName : string.
Variable rejects : list (gmap string Object.value) ->
                   Model.call Object.value (gmap string Object.value) -> option string.

Lemma assign_named (item data : gmap string Object.value) k v :
  data !! k = Some v -> Object.assign item data !! k = Some v.
Proof. intros Hk. unfold Object.assign. now apply lookup_union_Some_l. Qed.

Lemma assign_unnamed (item data : gmap string Object.value) k :
  data !! k = None -> Object.assign item data !! k = item !! k.
Proof. intros Hk. unfold Object.assign. now apply lookup_union_r. Qed.

(** C8: when the record exists and the store accepts the save,
    [update] is fulfilled with a record in which every field named in
    [data] holds the value supplied, whole, and every other field
    holds the value it had; that record is the one the collection
    then keeps under its [_id]. *)
Theorem update_overwrites_named_fields
    (c : list (gmap string Object.value)) (id : Object.value)
    (data item : gmap string Object.value) :
  Model.findById Object._id rejects c id = Fulfilled (Some item) ->
  rejects c (Model.Save (Object.assign item data)) = None ->
  exists item' c',
    BaseService.update modelName Object._id rejects Object.assign c id data
      = (Fulfilled item', c') /\
    (forall k v, data !! k = Some v -> item' !! k = Some v) /\
    (forall k, data !! k = None -> item' !! k = item !! k) /\
    List.find (Model.has_id Object._id (Object._id item')) c' = Some item'.
Proof.
  intros Hfind Hsave.
  exists (Object.assign item data), (Model.put Object._id c (Object.assign item data)).
  split; [| split; [| split]].
  - unfold BaseService.update, Model.save. now rewrite Hfind, Hsave.
  - intros k v. apply assign_named.
  - intros k. apply assign_unnamed.
  - apply find_put.
Qed.
End UpdateFields.

Lemma update_overwrites_named_fields_witness :
  exists item' c',
    BaseService.update "Item" Object._id Model.reliable Object.assign
        [Sample.widget] (Object.ObjectId 1) Sample.widget_data
      = (Fulfilled item', c') /\
    (forall k v, Sample.widget_data !! k = Some v -> item' !! k = Some v) /\
    (forall k, Sample.widget_data !! k = None -> item' !! k = Sample.widget !! k) /\
    List.find (Model.has_id Object._id (Object._id item')) c' = Some item'.
Proof.
  apply (update_overwrites_named_fields "Item" Model.reliable
           [Sample.widget] (Object.ObjectId 1) Sample.widget_data Sample.widget).
  - vm_compute. reflexivity.
  - reflexivity.
Defined.

(** The update of the sample record replaces its nested [maker] by the
    one supplied, which has no [zip], and keeps its [name]. *)
Example update_is_shallow :
  let item' := Object.assign Sample.widget Sample.widget_data in
  item' !! "maker" = Some (Object.object [("city", Object.prim (str "Nantes"))]) /\
  item' !! "name" = Some (Object.prim (str "Widget")) /\
  item' !! "price" = Some (Object.prim (num (of_Z 15))).
Proof. vm_compute. repeat split. Qed.

(** ** ProductService: listing and ranking *)

(** C2 fails on the code: the body of [allProducts] reads [keyword],
    which nothing binds (the parameter is [keywords]), so that every
    call rejects with a ReferenceError before any query is made; so does
    the call [allProducts(1, 10, "")] on 25 products. *)
Theorem allProducts_throws :
  (forall rejects c pageNumber pageSize keywords,
     ProductService.allProducts rejects c pageNumber pageSize keywords
       = Rejected (ReferenceError "keyword is not defined")) /\
  ProductService.allProducts Model.reliable
      (map (fun i => Sample.product i "Wireless Mouse" 0) (seq 1 25)) 1 10 ""
    = Rejected (ReferenceError "keyword is not defined").
Proof. split; reflexivity. Qed.

Lemma sort_desc_no_key {Doc : Type} (key : Doc -> option primitive) (l : list Doc) :
  (forall d, key d = None) -> Query.sort_desc key l = l.
Proof.
  intros Hkey. unfold Query.sort_desc.
  induction l as [| d l IH]; [reflexivity |].
  change (Query.insert_desc key d (fold_right (Query.insert_desc key) [] l) = d :: l).
  rewrite IH. destruct l as [| q l]; simpl; [reflexivity |].
  now rewrite (Hkey d), (Hkey q).
Qed.

(** On a store that answers, [topProducts] returns the first three
    products of the collection, whatever their ratings. *)
Lemma topProducts_natural_order (c : list Product.t) :
  ProductService.topProducts Model.reliable c = Fulfilled (firstn 3 c).
Proof.
  unfold ProductService.topProducts, Model.find, Model.reliable.
  rewrite sort_desc_no_key by reflexivity.
  f_equal. f_equal. induction c as [| d c IH]; simpl; [reflexivity |].
  now rewrite IH.
Qed.

Lemma topProducts_at_most_three (c l : list Product.t) :
  ProductService.topProducts Model.reliable c = Fulfilled l -> (length l <= 3)%nat.
Proof.
  rewrite topProducts_natural_order. intros [= <-]. apply firstn_le_length.
Qed.

(** C3 fails on the code: [topProducts] sorts on the path [range],
    which no product has, so that the order is that of the collection.
    Of four products rated 1, 5, 3 and 4 it returns those rated 1, 5
    and 3 in this order, not those rated 5, 4 and 3. *)
Theorem topProducts_ignores_rating :
  exists l,
    ProductService.topProducts Model.reliable
      [Sample.product 1 "Cable" 1; Sample.product 2 "Laptop" 5;
       Sample.product 3 "Webcam" 3; Sample.product 4 "Screen" 4] = Fulfilled l /\
    Spec.ratings l = [of_Z 1; of_Z 5; of_Z 3] /\
    Spec.ratings l <> [of_Z 5; of_Z 4; of_Z 3].
Proof.
  eexists. split; [apply topProducts_natural_order |].
  split; [reflexivity | discriminate].
Qed.

(** ** ProductService: reviews *)

Lemma add_comm (x y : number) : add x y = add y x.
Proof.
  unfold add, SFadd.
  destruct x as [sx | sx | | sx mx ex], y as [sy | sy | | sy my ey];
    try reflexivity; try (destruct sx, sy; reflexivity).
  now rewrite (Z.min_comm ex ey), Z.add_comm.
Qed.

Lemma add_NaN (x : number) : add NaN x = NaN.
Proof. reflexivity. Qed.

Lemma div_NaN (x : number) : div NaN x = NaN.
Proof. reflexivity. Qed.

Lemma isNaN_true (x : number) : isNaN x = true -> x = NaN.
Proof. destruct x; simpl; intros Hx; [discriminate Hx .. | reflexivity | discriminate Hx]. Qed.

Section ReviewFacts.
Variable rejects : list Product.t -> Model.call nat Product.t -> option string.

Lemma total_app (l : list Review.t) (r : Review.t) :
  ProductService.total (l ++ [r])%list
    = add (Review.rating r) (ProductService.total l).
Proof. unfold ProductService.total. now rewrite fold_left_app. Qed.

Lemma total_sum (l : list Review.t) :
  ProductService.total l
    = fold_left add (map Review.rating l) (S754_zero false).
Proof.
  unfold ProductService.total. generalize (S754_zero false).
  induction l as [| r l IH]; intros acc; simpl; [reflexivity |].
  rewrite IH. now rewrite (add_comm (Review.rating r) acc).
Qed.

(** What a fulfilled [productReview] has done. *)
Lemma productReview_fulfilled c c' productId user rating comment :
  ProductService.productReview rejects c productId user rating comment
    = (Fulfilled tt, c') ->
  exists product,
    List.find (Model.has_id Product._id productId) c = Some product /\
    List.find (ProductService.reviewed_by user) (Product.reviews product) = None /\
    c' = Model.put Product._id c
           (ProductService.reviewed product
              (ProductService.new_review user rating comment)).
Proof.
  unfold ProductService.productReview, BaseService.getById, Model.findById, Model.save.
  destruct (rejects c (Model.FindById productId)); [discriminate |].
  destruct (List.find (Model.has_id Product._id productId) c) as [product |];
    [| discriminate].
  destruct (List.find (ProductService.reviewed_by user) (Product.reviews product))
    eqn:Hnew; [discriminate |].
  destruct (rejects c (Model.Save _)); [discriminate |].
  intros [= <-]. exists product. repeat split. exact Hnew.
Qed.

(** The product a fulfilled [productReview] leaves in the collection. *)
Lemma productReview_stored c c' productId user rating comment :
  ProductService.productReview rejects c productId user rating comment
    = (Fulfilled tt, c') ->
  exists product,
    List.find (Model.has_id Product._id productId) c = Some product /\
    List.find (ProductService.reviewed_by user) (Product.reviews product) = None /\
    List.find (Model.has_id Product._id productId) c'
      = Some (ProductService.reviewed product
                (ProductService.new_review user rating comment)).
Proof.
  intros Hdone.
  destruct (productReview_fulfilled _ _ _ _ _ _ Hdone) as (product & Hfind & Hnew & ->).
  exists product. repeat split; try assumption.
  pose proof (find_has_id _ _ _ _ Hfind) as Hid.
  rewrite <- Hid at 1.
  apply (find_put Product._id c
           (ProductService.reviewed product
              (ProductService.new_review user rating comment))).
Qed.

Lemma find_reviewer_none user (l : list Review.t) :
  List.find (ProductService.reviewed_by user) l = None ->
  ~ In (ProductService._id user) (map Review.user l).
Proof.
  intros Hnone Hin. apply in_map_iff in Hin as (r & Hr & Hin).
  pose proof (List.find_none _ _ Hnone r Hin) as Hno.
  unfold ProductService.reviewed_by in Hno.
  apply Nat.eqb_neq in Hno. contradiction.
Qed.

Lemma find_reviewer_last user user' (l : list Review.t) rating comment :
  ProductService._id user' = ProductService._id user ->
  exists r,
    List.find (ProductService.reviewed_by user')
      (l ++ [ProductService.new_review user rating comment])%list = Some r.
Proof.
  intros Hsame.
  destruct (List.find _ _) as [r |] eqn:E; [now exists r |].
  exfalso.
  assert (Hin : In (ProductService.new_review user rating comment)
                  (l ++ [ProductService.new_review user rating comment])%list)
    by (apply in_or_app; right; now left).
  pose proof (List.find_none _ _ E _ Hin) as Hno.
  unfold ProductService.reviewed_by in Hno. simpl in Hno.
  apply Nat.eqb_neq in Hno. congruence.
Qed.

(** [productReview] keeps at most one review of a product by a user. *)
Lemma productReview_one_review_per_user c productId user rating comment :
  Spec.one_review_per_user c ->
  Spec.one_review_per_user
    (snd (ProductService.productReview rejects c productId user rating comment)).
Proof.
  intros Hinv.
  unfold ProductService.productReview, BaseService.getById, Model.findById, Model.save.
  destruct (rejects c (Model.FindById productId)); [exact Hinv |].
  destruct (List.find (Model.has_id Product._id productId) c) as [product |] eqn:Hfind;
    [| exact Hinv].
  destruct (List.find (ProductService.reviewed_by user) (Product.reviews product))
    eqn:Hnew; [exact Hinv |].
  destruct (rejects c (Model.Save _)); [exact Hinv |].
  simpl. apply Forall_put; [exact Hinv |].
  simpl. rewrite map_app. simpl.
  apply NoDup_app. repeat split.
  - apply List.find_some in Hfind as [Hin _].
    unfold Spec.one_review_per_user in Hinv.
    rewrite List.Forall_forall in Hinv. apply (Hinv _ Hin).
  - intros x Hx Hx'. apply list_elem_of_In in Hx, Hx'.
    destruct Hx' as [<- | []].
    now apply (find_reviewer_none user _ Hnew).
  - apply NoDup_singleton.
Qed.
(** A review by a user who has not reviewed the product is fulfilled
    when the store answers the read and accepts the save. *)
Lemma productReview_succeeds c productId user rating comment product :
  rejects c (Model.FindById productId) = None ->
  List.find (Model.has_id Product._id productId) c = Some product ->
  List.find (ProductService.reviewed_by user) (Product.reviews product) = None ->
  rejects c (Model.Save (ProductService.reviewed product
                           (ProductService.new_review user rating comment))) = None ->
  ProductService.productReview rejects c productId user rating comment
    = (Fulfilled tt,
       Model.put Product._id c
         (ProductService.reviewed product
            (ProductService.new_review user rating comment))).
Proof.
  intros Hread Hfind Hnew Hsave.
  unfold ProductService.productReview, BaseService.getById, Model.findById, Model.save.
  now rewrite Hread, Hfind, Hnew, Hsave.
Qed.
End ReviewFacts.

(** C6: after a fulfilled review of a product by a user, a review of
    the same product by the same user, on a store that answers the
    read, rejects with the error "Product already reviewed" and leaves
    the collection, hence the reviews, [numReviews] and [rating] of the
    product, as the first review left them; and every call of
    [productReview] keeps at most one review of a product by a user. *)
Theorem second_review_rejected
    (rejects : list Product.t -> Model.call nat Product.t -> option string)
    (c c1 : list Product.t) (productId : nat) (user user' : ProductService.user)
    (rating rating' : primitive) (comment comment' : string) :
  ProductService.productReview rejects c productId user rating comment
    = (Fulfilled tt, c1) ->
  rejects c1 (Model.FindById productId) = None ->
  ProductService._id user' = ProductService._id user ->
  ProductService.productReview rejects c1 productId user' rating' comment'
    = (Rejected (Error "Product already reviewed"), c1) /\
  (forall c0 p u r m,
     Spec.one_review_per_user c0 ->
     Spec.one_review_per_user (snd (ProductService.productReview rejects c0 p u r m))).
Proof.
  intros Hfirst Hread Hsame. split.
  - destruct (productReview_stored _ _ _ _ _ _ _ Hfirst) as (product & _ & _ & Hstored).
    unfold ProductService.productReview, BaseService.getById, Model.findById.
    rewrite Hread, Hstored. simpl.
    destruct (find_reviewer_last user user' (Product.reviews product) rating comment Hsame)
      as [r Hr].
    now rewrite Hr.
  - intros c0 p u r m. apply productReview_one_review_per_user.
Qed.

Lemma second_review_rejected_witness :
  ProductService.productReview Model.reliable (snd (Sample.submit [Sample.mouse] 1 (num (of_Z 5))))
      7 (Sample.reviewer 1) (num (of_Z 2)) "Again"
    = (Rejected (Error "Product already reviewed"),
       snd (Sample.submit [Sample.mouse] 1 (num (of_Z 5)))) /\
  (forall c0 p u r m,
     Spec.one_review_per_user c0 ->
     Spec.one_review_per_user
       (snd (ProductService.productReview Model.reliable c0 p u r m))).
Proof.
  apply (second_review_rejected Model.reliable [Sample.mouse]
           (snd (Sample.submit [Sample.mouse] 1 (num (of_Z 5))))
           7 (Sample.reviewer 1) (Sample.reviewer 1)
           (num (of_Z 5)) (num (of_Z 2)) "Good" "Again").
  - vm_compute. reflexivity.
  - reflexivity.
  - reflexivity.
Defined.

(** C7: a fulfilled [productReview] leaves the product with the new
    review last in its reviews, with [numReviews] the length of its
    reviews and with [rating] the mean of the ratings of its reviews;
    the ratings 5, 3 and 4 submitted in turn by three users on a
    product without reviews leave it with [numReviews] 3 and [rating] 4. *)
Theorem review_recomputes_count_and_mean :
  (forall rejects c c' productId user rating comment,
     ProductService.productReview rejects c productId user rating comment
       = (Fulfilled tt, c') ->
     exists product product',
       List.find (Model.has_id Product._id productId) c = Some product /\
       List.find (Model.has_id Product._id productId) c' = Some product' /\
       Product.reviews product'
         = (Product.reviews product
              ++ [ProductService.new_review user rating comment])%list /\
       Product.numReviews product' = length (Product.reviews product') /\
       Product.rating product'
         = Spec.mean (map Review.rating (Product.reviews product'))) /\
  (let first := Sample.submit [Sample.mouse] 1 (num (of_Z 5)) in
   let second := Sample.submit (snd first) 2 (num (of_Z 3)) in
   let third := Sample.submit (snd second) 3 (num (of_Z 4)) in
   Product.reviews Sample.mouse = [] /\
   fst first = Fulfilled tt /\
   fst second = Fulfilled tt /\
   fst third = Fulfilled tt /\
   Product.numReviews <$> List.find (Model.has_id Product._id 7) (snd third)
     = Some 3%nat /\
   Product.rating <$> List.find (Model.has_id Product._id 7) (snd third)
     = Some (of_Z 4)).
Proof.
  split.
  - intros rejects c c' productId user rating comment Hdone.
    destruct (productReview_stored _ _ _ _ _ _ _ Hdone) as (product & Hfind & _ & Hstored).
    exists product. eexists. split; [exact Hfind |]. split; [exact Hstored |].
    simpl. repeat split.
    unfold Spec.mean. rewrite <- total_sum. now rewrite length_map.
  - vm_compute. repeat split.
Qed.

Lemma review_recomputes_count_and_mean_witness :
  exists product product',
    List.find (Model.has_id Product._id 7) [Sample.mouse] = Some product /\
    List.find (Model.has_id Product._id 7)
      (snd (Sample.submit [Sample.mouse] 1 (num (of_Z 5)))) = Some product' /\
    Product.reviews product'
      = (Product.reviews product
           ++ [ProductService.new_review (Sample.reviewer 1) (num (of_Z 5)) "Good"])%list /\
    Product.numReviews product' = length (Product.reviews product') /\
    Product.rating product'
      = Spec.mean (map Review.rating (Product.reviews product')).
Proof.
  apply (proj1 review_recomputes_count_and_mean Model.reliable [Sample.mouse]
           (snd (Sample.submit [Sample.mouse] 1 (num (of_Z 5))))
           7 (Sample.reviewer 1) (num (of_Z 5)) "Good").
  vm_compute. reflexivity.
Defined.

(** ** UserController.register *)

Section RegisterFacts.
Import UserController.

Variable isValidEmail : string -> bool.
Variable generateToken : nat -> string.
Variable hash : string -> string.
Variable rejects : list User.t -> Model.call nat User.t -> option string.

Ltac run :=
  unfold register_try, userService_create, BaseService.create, Model.save,
    Model.findOne, mbind, handler_bind, bind, mret, handler_ret, ret,
    reading, writing, try_catch, res_json in *;
  simpl in *.

(** Once a response is sent, no later answer replaces it. *)
Lemma res_json_sent s p (w : world) r :
  sent w = Some r -> res_json s p w = (Rejected HeadersSentError, w).
Proof. intros Hsent. unfold res_json. now rewrite Hsent. Qed.

(** What the [try] block of [register] leaves when it answers 201. *)
Lemma register_try_created firstname lastname email password
    (w w' : world) (r : promise unit) (p : payload) :
  sent w = None ->
  try_catch (register_try isValidEmail generateToken hash rejects
               firstname lastname email password)
    (fun error => res_json 500 (answer errorMessage_default)) w = (r, w') ->
  sent w' = Some {| status := 201; json := p |} ->
  let createdUser :=
    User.construct hash (users w)
      {| User.data_firstname := firstname; User.data_lastname := lastname;
         User.data_email := email; User.data_password := password |} in
  users w' = Model.put User._id (users w) createdUser /\
  p = {| message := successMessage_user_created;
         data := Some (created_data generateToken createdUser) |}.
Proof.
  intros Hfresh Hrun Hsent. run.
  repeat match type of Hrun with
  | context [rejects ?c ?k] => destruct (rejects c k) eqn:?; simpl in Hrun
  | context [List.find ?f ?l] => destruct (List.find f l) eqn:?; simpl in Hrun
  | context [isValidEmail ?e] => destruct (isValidEmail e) eqn:?; simpl in Hrun
  | context [sent w] => rewrite Hfresh in Hrun; simpl in Hrun
  end;
  injection Hrun as _ <-; simpl in Hsent; try discriminate Hsent.
  injection Hsent as <-. split; reflexivity.
Qed.

(** C9: when [register] answers 201 to a request, it has created a
    user from the body of the request, and the data of the answer are
    the [_id], [firstname], [lastname], [email] and [isAdmin] of that
    user and a token issued for its [_id]; no field [password] is
    among them. *)
Theorem register_created_payload (req_body : option body) (w w' : world)
    (r : promise unit) (p : payload) :
  sent w = None ->
  register isValidEmail generateToken hash rejects req_body w = (r, w') ->
  sent w' = Some {| status := 201; json := p |} ->
  exists (d : User.data) (createdUser : User.t),
    createdUser = User.construct hash (users w) d /\
    users w' = Model.put User._id (users w) createdUser /\
    message p = successMessage_user_created /\
    data p = Some
      [("_id", Object.ObjectId (User._id createdUser));
       ("firstname", Object.prim (str (User.firstname createdUser)));
       ("lastname", Object.prim (str (User.lastname createdUser)));
       ("email", Object.prim (str (User.email createdUser)));
       ("isAdmin", Object.prim (boolean (User.isAdmin createdUser)));
       ("token", Object.prim (str (generateToken (User._id createdUser))))] /\
    (forall fields, data p = Some fields -> ~ In "password" (map fst fields)).
Proof.
  intros Hfresh Hrun Hsent. unfold register in Hrun.
  destruct req_body as [b |];
    [| unfold res_json in Hrun; rewrite Hfresh in Hrun;
       injection Hrun as _ <-; discriminate Hsent].
  destruct (present (firstname b)) as [fn |];
    [| unfold res_json in Hrun; rewrite Hfresh in Hrun;
       injection Hrun as _ <-; discriminate Hsent].
  destruct (present (lastname b)) as [ln |];
    [| unfold res_json in Hrun; rewrite Hfresh in Hrun;
       injection Hrun as _ <-; discriminate Hsent].
  destruct (present (email b)) as [em |];
    [| unfold res_json in Hrun; rewrite Hfresh in Hrun;
       injection Hrun as _ <-; discriminate Hsent].
  destruct (present (password b)) as [pw |];
    [| unfold res_json in Hrun; rewrite Hfresh in Hrun;
       injection Hrun as _ <-; discriminate Hsent].
  destruct (register_try_created fn ln em pw w w' r p Hfresh Hrun Hsent)
    as [Husers ->].
  eexists. eexists. split; [reflexivity |]. split; [exact Husers |].
  split; [reflexivity |]. split; [reflexivity |].
  intros fields [= <-]. simpl.
  intros [H | [H | [H | [H | [H | [H | []]]]]]]; discriminate H.
Qed.

(** After its answer 409 [register] goes on: with an email that
    [isValidEmail] accepts it creates the user all the same, and what
    the collection becomes is up to the store. *)
Lemma register_goes_on_after_409 fn ln em pw (w : world) existing :
  present (Some fn) = Some fn -> present (Some ln) = Some ln ->
  present (Some em) = Some em -> present (Some pw) = Some pw ->
  sent w = None ->
  Model.findOne rejects (users w) (fun u => String.eqb (User.email u) em)
    = Fulfilled (Some existing) ->
  isValidEmail em = true ->
  let w' := snd (register isValidEmail generateToken hash rejects
                   (Some {| firstname := Some fn; lastname := Some ln;
                            email := Some em; password := Some pw |}) w) in
  sent w' = Some {| status := 409;
                    json := answer errorMessage_user_already_exist |} /\
  users w' = snd (userService_create hash rejects (users w)
                    {| User.data_firstname := fn; User.data_lastname := ln;
                       User.data_email := em; User.data_password := pw |}).
Proof.
  intros Hfn Hln Hem Hpw Hfresh Hfind Hvalid. unfold register.
  cbn [firstname lastname email password].
  rewrite Hfn, Hln, Hem, Hpw. run.
  destruct (rejects (users w) Model.FindOne); [discriminate Hfind |].
  injection Hfind as ->. rewrite Hfresh. simpl. rewrite Hvalid. simpl.
  destruct (rejects (users w) (Model.Save _)); simpl; split; reflexivity.
Qed.
(** A registration with a valid email that no user has is answered
    201 when the store answers the read and accepts the save. *)
Lemma register_answers_201 fn ln em pw (w : world) :
  present (Some fn) = Some fn -> present (Some ln) = Some ln ->
  present (Some em) = Some em -> present (Some pw) = Some pw ->
  sent w = None ->
  Model.findOne rejects (users w) (fun u => String.eqb (User.email u) em)
    = Fulfilled None ->
  isValidEmail em = true ->
  let createdUser :=
    User.construct hash (users w)
      {| User.data_firstname := fn; User.data_lastname := ln;
         User.data_email := em; User.data_password := pw |} in
  rejects (users w) (Model.Save createdUser) = None ->
  register isValidEmail generateToken hash rejects
      (Some {| firstname := Some fn; lastname := Some ln;
               email := Some em; password := Some pw |}) w
    = (Fulfilled tt,
       {| users := Model.put User._id (users w) createdUser;
          sent := Some {| status := 201;
                          json := {| message := successMessage_user_created;
                                     data := Some (created_data generateToken
                                                     createdUser) |} |} |}).
Proof.
  intros Hfn Hln Hem Hpw Hfresh Hfind Hvalid createdUser Hsave.
  unfold register. cbn [firstname lastname email password].
  rewrite Hfn, Hln, Hem, Hpw. run.
  destruct (rejects (users w) Model.FindOne); [discriminate Hfind |].
  injection Hfind as ->. simpl. rewrite Hvalid. simpl.
  fold createdUser. rewrite Hsave. simpl. now rewrite Hfresh.
Qed.
End RegisterFacts.

Lemma register_created_payload_witness :
  let w' := snd (UserController.register Sample.isValidEmail Sample.generateToken
                   Sample.hash Model.reliable (Sample.registration "bob@shop.io")
                   (Sample.start [Sample.alice])) in
  exists (d : User.data) (createdUser : User.t),
    createdUser = User.construct Sample.hash [Sample.alice] d /\
    UserController.users w' = Model.put User._id [Sample.alice] createdUser /\
    UserController.message Sample.bob_created
      = UserController.successMessage_user_created /\
    UserController.data Sample.bob_created = Some
      [("_id", Object.ObjectId (User._id createdUser));
       ("firstname", Object.prim (str (User.firstname createdUser)));
       ("lastname", Object.prim (str (User.lastname createdUser)));
       ("email", Object.prim (str (User.email createdUser)));
       ("isAdmin", Object.prim (boolean (User.isAdmin createdUser)));
       ("token", Object.prim (str (Sample.generateToken (User._id createdUser))))] /\
    (forall fields,
       UserController.data Sample.bob_created = Some fields ->
       ~ In "password" (map fst fields)).
Proof.
  apply (register_created_payload Sample.isValidEmail Sample.generateToken
           Sample.hash Model.reliable (Sample.registration "bob@shop.io")
           (Sample.start [Sample.alice])
           (snd (UserController.register Sample.isValidEmail Sample.generateToken
                   Sample.hash Model.reliable (Sample.registration "bob@shop.io")
                   (Sample.start [Sample.alice])))
           (Fulfilled tt) Sample.bob_created).
  - reflexivity.
  - vm_compute. reflexivity.
  - vm_compute. reflexivity.
Defined.

(** On a store without the unique index on email, which accepts the
    save, [register] answers 409 to a request with the email of a user
    and then, for want of a [return], creates a second user with that
    email; its answer 201 finds the response sent and the handler
    rejects. *)
Example register_without_unique_index :
  let (r, w') :=
    UserController.register Sample.isValidEmail Sample.generateToken Sample.hash
      Model.reliable (Sample.registration "alice@shop.io")
      (Sample.start [Sample.alice]) in
  UserController.sent w'
    = Some {| UserController.status := 409;
              UserController.json :=
                UserController.answer
                  UserController.errorMessage_user_already_exist |} /\
  map User.email (UserController.users w') = ["alice@shop.io"; "alice@shop.io"] /\
  map User._id (UserController.users w') = [1; 2]%nat /\
  r = Rejected HeadersSentError.
Proof. vm_compute. repeat split. Qed.

(** * Further properties of the services and of the handlers *)

(** ** More facts on the store *)

Section StoreFacts.
Context {Id Doc : Type} `{EqDecision Id}.
Variable _id : Doc -> Id.

Lemma has_id_eq id d : Model.has_id _id id d = true -> _id d = id.
Proof. apply has_id_true. Qed.

Lemma has_id_self d : Model.has_id _id (_id d) d = true.
Proof. now apply has_id_true. Qed.

Lemma put_fresh (c : list Doc) item :
  Forall (fun d => _id d <> _id item) c -> Model.put _id c item = (c ++ [item])%list.
Proof.
  induction 1 as [| d c Hd _ IH]; simpl; [reflexivity |].
  destruct (Model.has_id _id (_id item) d) eqn:E.
  - apply has_id_eq in E. now apply Hd in E.
  - now rewrite IH.
Qed.

Lemma put_found (c : list Doc) item :
  List.find (Model.has_id _id (_id item)) c = Some item -> Model.put _id c item = c.
Proof.
  induction c as [| d c IH]; simpl; [discriminate |].
  destruct (Model.has_id _id (_id item) d).
  - now intros [= ->].
  - intros Hf. now rewrite IH.
Qed.

Lemma find_put_other (c : list Doc) item id :
  id <> _id item ->
  List.find (Model.has_id _id id) (Model.put _id c item)
    = List.find (Model.has_id _id id) c.
Proof.
  intros Hne.
  assert (Hitem : Model.has_id _id id item = false).
  { apply not_true_is_false. intros E. apply has_id_eq in E. congruence. }
  induction c as [| d c IH]; simpl.
  - now rewrite Hitem.
  - destruct (Model.has_id _id (_id item) d) eqn:E; simpl.
    + rewrite Hitem.
      assert (Hd : Model.has_id _id id d = false).
      { apply not_true_is_false. intros E'.
        apply has_id_eq in E, E'. congruence. }
      now rewrite Hd.
    + now rewrite IH.
Qed.

Lemma length_put (c : list Doc) item d :
  List.find (Model.has_id _id (_id item)) c = Some d ->
  length (Model.put _id c item) = length c.
Proof.
  revert d. induction c as [| x c IH]; intros d; simpl; [discriminate |].
  destruct (Model.has_id _id (_id item) x); simpl; [reflexivity |].
  intros Hf. now rewrite (IH d).
Qed.

Lemma put_put (c : list Doc) i1 i2 :
  _id i2 = _id i1 ->
  Model.put _id (Model.put _id c i1) i2 = Model.put _id c i2.
Proof.
  intros Hsame.
  assert (Hself : Model.has_id _id (_id i2) i1 = true)
    by (rewrite Hsame; apply has_id_self).
  induction c as [| d c IH]; simpl.
  - now rewrite Hself.
  - destruct (Model.has_id _id (_id i1) d) eqn:E; simpl.
    + rewrite Hself. rewrite Hsame, E. reflexivity.
    + rewrite Hsame, E. now rewrite IH.
Qed.

Lemma In_put (c : list Doc) item d :
  In d (Model.put _id c item) -> In d c \/ d = item.
Proof.
  induction c as [| x c IH]; simpl.
  - intros [<- | []]. now right.
  - destruct (Model.has_id _id (_id item) x); simpl.
    + intros [<- | Hin]; [now right | left; now right].
    + intros [<- | Hin]; [left; now left |].
      destruct (IH Hin) as [Hc | ->]; [left; now right | now right].
Qed.

Lemma find_removed (c : list Doc) id :
  List.find (Model.has_id _id id)
    (List.filter (fun d => negb (Model.has_id _id id d)) c) = None.
Proof.
  induction c as [| d c IH]; simpl; [reflexivity |].
  destruct (Model.has_id _id id d) eqn:E; simpl; [exact IH |].
  now rewrite E.
Qed.

Lemma find_remove_other (c : list Doc) id id' :
  id' <> id ->
  List.find (Model.has_id _id id')
    (List.filter (fun d => negb (Model.has_id _id id d)) c)
    = List.find (Model.has_id _id id') c.
Proof.
  intros Hne. induction c as [| d c IH]; simpl; [reflexivity |].
  destruct (Model.has_id _id id d) eqn:E; simpl.
  - assert (Hd : Model.has_id _id id' d = false).
    { apply not_true_is_false. intros E'. apply has_id_eq in E, E'. congruence. }
    now rewrite Hd.
  - now rewrite IH.
Qed.

Lemma length_removed (c : list Doc) id d :
  List.find (Model.has_id _id id) c = Some d ->
  (length (List.filter (fun x => negb (Model.has_id _id id x)) c) < length c)%nat.
Proof.
  revert d. induction c as [| x c IH]; intros d; simpl; [discriminate |].
  destruct (Model.has_id _id id x) eqn:E; simpl.
  - intros _. pose proof (List.filter_length_le
      (fun x => negb (Model.has_id _id id x)) c). lia.
  - intros Hf. specialize (IH d Hf). lia.
Qed.
End StoreFacts.

Lemma find_app_found {A : Type} (p : A -> bool) (c l : list A) (d : A) :
  List.find p c = Some d -> List.find p (c ++ l)%list = Some d.
Proof.
  induction c as [| x c IH]; simpl; [discriminate |].
  destruct (p x); [trivial | exact IH].
Qed.

(** ** BaseService: what an operation leaves in the collection *)

Section BaseServiceWrites.
Context {Id Doc Data : Type} `{EqDecision Id}.
Variable modelName : string.
Variable _id : Doc -> Id.
Variable construct : list Doc -> Data -> Doc.
Variable rejects : list Doc -> Model.call Id Doc -> option string.
Variable assign : Doc -> Data -> Doc.

(** X1: an operation of [BaseService] that rejects leaves the
    collection as it was, and one that is fulfilled has written exactly
    the record it is fulfilled with: [create] and [update] have put it
    in the collection, [delete] has taken the records of its [_id] out. *)
Theorem operation_writes_what_it_returns (c : list Doc) (id : Id) (data : Data) :
  snd (BaseService.create _id construct rejects c data)
    = match fst (BaseService.create _id construct rejects c data) with
      | Fulfilled item => Model.put _id c item
      | Rejected _ => c
      end /\
  snd (BaseService.update modelName _id rejects assign c id data)
    = match fst (BaseService.update modelName _id rejects assign c id data) with
      | Fulfilled item => Model.put _id c item
      | Rejected _ => c
      end /\
  snd (BaseService.delete modelName _id rejects c id)
    = match fst (BaseService.delete modelName _id rejects c id) with
      | Fulfilled item => List.filter (fun d => negb (Model.has_id _id (_id item) d)) c
      | Rejected _ => c
      end.
Proof.
  unfold BaseService.create, BaseService.update, BaseService.delete,
    Model.findById, Model.save, Model.remove.
  repeat split.
  - destruct (rejects c (Model.Save _)); reflexivity.
  - destruct (rejects c (Model.FindById id)); [reflexivity |].
    destruct (List.find _ c) as [item |]; [| reflexivity].
    destruct (rejects c (Model.Save _)); reflexivity.
  - destruct (rejects c (Model.FindById id)); [reflexivity |].
    destruct (List.find _ c) as [item |]; [| reflexivity].
    destruct (rejects c (Model.Remove _)); reflexivity.
Qed.

(** X2: when the new document has an [_id] that no record has and the
    store accepts the save, [create] is fulfilled with that document
    and adds it last; [getById] then finds it under its [_id], and
    every record found before is found as before. *)
Theorem create_then_getById (c : list Doc) (data : Data) :
  let newItem := construct c data in
  Forall (fun d => _id d <> _id newItem) c ->
  rejects c (Model.Save newItem) = None ->
  rejects (c ++ [newItem])%list (Model.FindById (_id newItem)) = None ->
  BaseService.create _id construct rejects c data
    = (Fulfilled newItem, (c ++ [newItem])%list) /\
  BaseService.getById _id rejects (c ++ [newItem])%list (_id newItem)
    = Fulfilled (Some newItem) /\
  (forall id d,
     List.find (Model.has_id _id id) c = Some d ->
     List.find (Model.has_id _id id) (c ++ [newItem])%list = Some d).
Proof.
  intros newItem Hfresh Hsave Hread.
  pose proof (put_fresh _id c newItem Hfresh) as Hput.
  split; [| split].
  - unfold BaseService.create, Model.save. fold newItem.
    now rewrite Hsave, Hput.
  - unfold BaseService.getById, Model.findById. rewrite Hread, <- Hput.
    now rewrite find_put.
  - intros id d Hfind. now apply find_app_found.
Qed.

(** X3: when the record exists and the store accepts the removal,
    [delete] is fulfilled with the record; the collection is then
    shorter, [getById] no longer finds the [_id], a second [delete]
    rejects with the not-found error, and every other [_id] is found as
    before. *)
Theorem delete_then_getById (c : list Doc) (id : Id) (item : Doc) :
  Model.findById _id rejects c id = Fulfilled (Some item) ->
  rejects c (Model.Remove item) = None ->
  let c' := List.filter (fun d => negb (Model.has_id _id id d)) c in
  rejects c' (Model.FindById id) = None ->
  BaseService.delete modelName _id rejects c id = (Fulfilled item, c') /\
  (length c' < length c)%nat /\
  BaseService.getById _id rejects c' id = Fulfilled None /\
  BaseService.delete modelName _id rejects c' id
    = (Rejected (Error ("Error on deleting item : " ++ modelName ++ " not found")), c') /\
  (forall id', id' <> id ->
     List.find (Model.has_id _id id') c' = List.find (Model.has_id _id id') c).
Proof.
  intros Hfind Hremove c' Hread.
  assert (Hfound : List.find (Model.has_id _id id) c = Some item).
  { unfold Model.findById in Hfind.
    destruct (rejects c (Model.FindById id)); [discriminate |]. congruence. }
  pose proof (find_has_id _id c id item Hfound) as Hid.
  split; [| split; [| split; [| split]]].
  - unfold BaseService.delete, Model.remove. rewrite Hfind, Hremove, Hid. reflexivity.
  - apply (length_removed _id c id item Hfound).
  - unfold BaseService.getById, Model.findById. rewrite Hread.
    unfold c'. now rewrite find_removed.
  - unfold BaseService.delete, Model.findById. rewrite Hread.
    unfold c'. now rewrite find_removed.
  - intros id' Hne. apply find_remove_other. exact Hne.
Qed.
End BaseServiceWrites.

Lemma create_then_getById_witness :
  BaseService.create Object._id Scenario.construct Model.reliable
      [Sample.widget] Scenario.rename
    = (Fulfilled (Scenario.construct [Sample.widget] Scenario.rename),
       ([Sample.widget] ++ [Scenario.construct [Sample.widget] Scenario.rename])%list) /\
  BaseService.getById Object._id Model.reliable
      ([Sample.widget] ++ [Scenario.construct [Sample.widget] Scenario.rename])%list
      (Object._id (Scenario.construct [Sample.widget] Scenario.rename))
    = Fulfilled (Some (Scenario.construct [Sample.widget] Scenario.rename)) /\
  (forall id d,
     List.find (Model.has_id Object._id id) [Sample.widget] = Some d ->
     List.find (Model.has_id Object._id id)
       ([Sample.widget] ++ [Scenario.construct [Sample.widget] Scenario.rename])%list
       = Some d).
Proof.
  apply (create_then_getById Object._id Scenario.construct Model.reliable
           [Sample.widget] Scenario.rename).
  - repeat constructor. vm_compute. discriminate.
  - reflexivity.
  - reflexivity.
Defined.

Lemma delete_then_getById_witness :
  let c' := List.filter (fun d => negb (Model.has_id Product._id 7 d))
              [Sample.mouse; Scenario.keyboard] in
  BaseService.delete "Product" Product._id Model.reliable
      [Sample.mouse; Scenario.keyboard] 7 = (Fulfilled Sample.mouse, c') /\
  (length c' < length [Sample.mouse; Scenario.keyboard])%nat /\
  BaseService.getById Product._id Model.reliable c' 7 = Fulfilled None /\
  BaseService.delete "Product" Product._id Model.reliable c' 7
    = (Rejected (Error ("Error on deleting item : " ++ "Product" ++ " not found")), c') /\
  (forall id', id' <> 7%nat ->
     List.find (Model.has_id Product._id id') c'
       = List.find (Model.has_id Product._id id') [Sample.mouse; Scenario.keyboard]).
Proof.
  apply (delete_then_getById "Product" Product._id Model.reliable
           [Sample.mouse; Scenario.keyboard] 7 Sample.mouse).
  - reflexivity.
  - reflexivity.
  - reflexivity.
Defined.

(** ** BaseService.update on the rest of the collection, and in sequence *)

Section UpdateFrame.
Variable modelName : string.
Variable rejects : list (gmap string Object.value) ->
                   Model.call Object.value (gmap string Object.value) -> option string.

Lemma assign_keeps_id (item data : gmap string Object.value) :
  data !! "_id" = None -> Object._id (Object.assign item data) = Object._id item.
Proof.
  intros Hid. unfold Object._id, Object.get.
  now rewrite (assign_unnamed item data "_id" Hid).
Qed.

Lemma findById_found (c : list (gmap string Object.value)) id item :
  Model.findById Object._id rejects c id = Fulfilled (Some item) ->
  List.find (Model.has_id Object._id id) c = Some item /\ Object._id item = id.
Proof.
  unfold Model.findById. destruct (rejects c (Model.FindById id)); [discriminate |].
  intros [= Hfind]. split; [exact Hfind |]. now apply find_has_id in Hfind.
Qed.

(** X4: an update whose data do not name [_id] changes one record
    only: the collection keeps its length, the updated record is found
    under the same [_id], and every other [_id] is found as before. *)
Theorem update_changes_one_record
    (c : list (gmap string Object.value)) (id : Object.value)
    (data item : gmap string Object.value) :
  Model.findById Object._id rejects c id = Fulfilled (Some item) ->
  rejects c (Model.Save (Object.assign item data)) = None ->
  data !! "_id" = None ->
  exists c',
    BaseService.update modelName Object._id rejects Object.assign c id data
      = (Fulfilled (Object.assign item data), c') /\
    length c' = length c /\
    List.find (Model.has_id Object._id id) c' = Some (Object.assign item data) /\
    (forall id', id' <> id ->
       List.find (Model.has_id Object._id id') c'
         = List.find (Model.has_id Object._id id') c).
Proof.
  intros Hfind Hsave Hid.
  destruct (findById_found c id item Hfind) as [Hfound Hitem].
  pose proof (assign_keeps_id item data Hid) as Hkept. rewrite Hitem in Hkept.
  exists (Model.put Object._id c (Object.assign item data)).
  split; [| split; [| split]].
  - unfold BaseService.update, Model.save. now rewrite Hfind, Hsave.
  - apply (length_put Object._id c _ item). now rewrite Hkept.
  - rewrite <- Hkept at 1. apply find_put.
  - intros id' Hne. apply find_put_other. now rewrite Hkept.
Qed.

(** X5: an update with no data changes nothing: it is fulfilled with
    the record as it was and leaves the collection as it was. *)
Theorem update_with_no_data
    (c : list (gmap string Object.value)) (id : Object.value)
    (item : gmap string Object.value) :
  Model.findById Object._id rejects c id = Fulfilled (Some item) ->
  rejects c (Model.Save item) = None ->
  BaseService.update modelName Object._id rejects Object.assign c id ∅
    = (Fulfilled item, c).
Proof.
  intros Hfind Hsave.
  destruct (findById_found c id item Hfind) as [Hfound Hitem].
  assert (Hsame : Object.assign item ∅ = item).
  { unfold Object.assign. apply (left_id_L ∅ (∪)). }
  unfold BaseService.update, Model.save. rewrite Hfind, Hsame, Hsave.
  f_equal. apply put_found. now rewrite Hitem.
Qed.
End UpdateFrame.

(** X6: on a store that rejects nothing, two updates of a record in a
    row, neither naming [_id], amount to one update with the data of
    the second laid over those of the first; an update made twice
    amounts to the update made once. *)
Theorem update_twice
    (c : list (gmap string Object.value)) (id : Object.value)
    (first second item : gmap string Object.value) :
  List.find (Model.has_id Object._id id) c = Some item ->
  first !! "_id" = None ->
  second !! "_id" = None ->
  let update c data :=
    BaseService.update "Item" Object._id Model.reliable Object.assign c id data in
  update (snd (update c first)) second = update c (second ∪ first) /\
  update (snd (update c first)) first = update c first.
Proof.
  intros Hfound Hfirst Hsecond update.
  assert (Hitem : Object._id item = id) by now apply find_has_id in Hfound.
  assert (Hstep : forall data,
            update c data
              = (Fulfilled (Object.assign item data),
                 Model.put Object._id c (Object.assign item data))).
  { intros data. unfold update, BaseService.update, Model.findById, Model.save.
    simpl. now rewrite Hfound. }
  assert (Hagain : forall data,
            data !! "_id" = None ->
            update (snd (update c first)) data
              = (Fulfilled (Object.assign (Object.assign item first) data),
                 Model.put Object._id c
                   (Object.assign (Object.assign item first) data))).
  { intros data Hdata. rewrite Hstep. simpl.
    unfold update, BaseService.update, Model.findById, Model.save. simpl.
    pose proof (assign_keeps_id item first Hfirst) as Hkept.
    rewrite <- Hitem at 1. rewrite <- Hkept at 1. rewrite find_put.
    f_equal. apply put_put.
    now rewrite (assign_keeps_id _ data Hdata). }
  split.
  - rewrite (Hagain second Hsecond), Hstep.
    unfold Object.assign. now rewrite (assoc_L (∪)).
  - rewrite (Hagain first Hfirst), Hstep.
    unfold Object.assign. now rewrite (assoc_L (∪)), (idemp_L (∪)).
Qed.

Lemma update_changes_one_record_witness :
  exists c',
    BaseService.update "Item" Object._id Model.reliable Object.assign
        [Sample.widget; Scenario.gadget] (Object.ObjectId 1) Scenario.rename
      = (Fulfilled (Object.assign Sample.widget Scenario.rename), c') /\
    length c' = length [Sample.widget; Scenario.gadget] /\
    List.find (Model.has_id Object._id (Object.ObjectId 1)) c'
      = Some (Object.assign Sample.widget Scenario.rename) /\
    (forall id', id' <> Object.ObjectId 1 ->
       List.find (Model.has_id Object._id id') c'
         = List.find (Model.has_id Object._id id') [Sample.widget; Scenario.gadget]).
Proof.
  apply (update_changes_one_record "Item" Model.reliable
           [Sample.widget; Scenario.gadget] (Object.ObjectId 1)
           Scenario.rename Sample.widget).
  - vm_compute. reflexivity.
  - reflexivity.
  - vm_compute. reflexivity.
Defined.

Lemma update_with_no_data_witness :
  BaseService.update "Item" Object._id Model.reliable Object.assign
      [Sample.widget; Scenario.gadget] (Object.ObjectId 2) ∅
    = (Fulfilled Scenario.gadget, [Sample.widget; Scenario.gadget]).
Proof.
  apply (update_with_no_data "Item" Model.reliable
           [Sample.widget; Scenario.gadget] (Object.ObjectId 2) Scenario.gadget).
  - vm_compute. reflexivity.
  - reflexivity.
Defined.

Lemma update_twice_witness :
  let update c data :=
    BaseService.update "Item" Object._id Model.reliable Object.assign c
      (Object.ObjectId 1) data in
  update (snd (update [Sample.widget; Scenario.gadget] Scenario.rename)) Scenario.reprice
    = update [Sample.widget; Scenario.gadget] (Scenario.reprice ∪ Scenario.rename) /\
  update (snd (update [Sample.widget; Scenario.gadget] Scenario.rename)) Scenario.rename
    = update [Sample.widget; Scenario.gadget] Scenario.rename.
Proof.
  apply (update_twice [Sample.widget; Scenario.gadget] (Object.ObjectId 1)
           Scenario.rename Scenario.reprice Sample.widget).
  - vm_compute. reflexivity.
  - vm_compute. reflexivity.
  - vm_compute. reflexivity.
Defined.

(** ** ProductService.productReview: failures, frame and invariants *)

Section ReviewOutcomes.
Variable rejects : list Product.t -> Model.call nat Product.t -> option string.

(** X7: a review that rejects leaves the collection as it was, and
    rejects with one of four errors: the wrapped error of [getById]
    when the store rejects the read, "Product not found", "Product
    already reviewed", or the error of the store itself when the store
    rejects the save. *)
Theorem productReview_rejections c productId user rating comment e :
  fst (ProductService.productReview rejects c productId user rating comment)
    = Rejected e ->
  snd (ProductService.productReview rejects c productId user rating comment) = c /\
  ((exists m, rejects c (Model.FindById productId) = Some m /\
              e = Error ("Error while retrieving this item : " ++ m)) \/
   e = Error "Product not found" \/
   e = Error "Product already reviewed" \/
   (exists item m, rejects c (Model.Save item) = Some m /\ e = StoreError m)).
Proof.
  unfold ProductService.productReview, BaseService.getById, Model.findById, Model.save.
  destruct (rejects c (Model.FindById productId)) as [m |] eqn:Hread; simpl.
  { intros [= <-]. split; [reflexivity |]. left. now exists m. }
  destruct (List.find _ c) as [product |]; simpl.
  2: { intros [= <-]. split; [reflexivity |]. right. now left. }
  destruct (List.find _ (Product.reviews product)); simpl.
  { intros [= <-]. split; [reflexivity |]. right. right. now left. }
  destruct (rejects c (Model.Save _)) as [m |] eqn:Hsave; simpl; [| discriminate].
  intros [= <-]. split; [reflexivity |]. right. right. right. eauto.
Qed.

(** X8: when the store answers the read and no product has the id,
    the review rejects with "Product not found", which no wrapper
    precedes, and leaves the collection as it was. *)
Theorem productReview_of_missing_product c productId user rating comment :
  rejects c (Model.FindById productId) = None ->
  Forall (fun p => Product._id p <> productId) c ->
  ProductService.productReview rejects c productId user rating comment
    = (Rejected (Error "Product not found"), c).
Proof.
  intros Hread Habsent.
  unfold ProductService.productReview, BaseService.getById.
  now rewrite (findById_absent Product._id rejects c productId Hread Habsent).
Qed.

(** X9: a fulfilled review changes one product only, and of it only
    the reviews and the fields derived from them: the collection keeps
    its length, every other product is found as before, and the product
    keeps its [_id], name, description, price, stock and image and
    every review it had, in order. *)
Theorem productReview_frame c c' productId user rating comment :
  ProductService.productReview rejects c productId user rating comment
    = (Fulfilled tt, c') ->
  exists product product',
    List.find (Model.has_id Product._id productId) c = Some product /\
    List.find (Model.has_id Product._id productId) c' = Some product' /\
    length c' = length c /\
    (forall id, id <> productId ->
       List.find (Model.has_id Product._id id) c'
         = List.find (Model.has_id Product._id id) c) /\
    Product._id product' = Product._id product /\
    Product.name product' = Product.name product /\
    Product.description product' = Product.description product /\
    Product.price product' = Product.price product /\
    Product.stock product' = Product.stock product /\
    Product.image product' = Product.image product /\
    firstn (length (Product.reviews product)) (Product.reviews product')
      = Product.reviews product.
Proof.
  intros Hdone.
  destruct (productReview_stored _ _ _ _ _ _ _ Hdone) as (product & Hfind & _ & Hstored).
  destruct (productReview_fulfilled _ _ _ _ _ _ _ Hdone) as (product0 & Hfind0 & _ & ->).
  assert (product0 = product) as -> by congruence.
  pose proof (find_has_id _ _ _ _ Hfind) as Hid.
  exists product. eexists. split; [exact Hfind |]. split; [exact Hstored |].
  split; [| split].
  - apply (length_put Product._id c _ product). simpl. now rewrite Hid.
  - intros id Hne. apply find_put_other. simpl. now rewrite Hid.
  - simpl. repeat split. now rewrite firstn_app, Nat.sub_diag, firstn_all, app_nil_r.
Qed.

(** X10: every call of [productReview], fulfilled or not, keeps the
    derived fields of the products in agreement with their reviews. *)
Theorem productReview_keeps_derived_fields c productId user rating comment :
  Invariant.derived_fields_agree c ->
  Invariant.derived_fields_agree
    (snd (ProductService.productReview rejects c productId user rating comment)).
Proof.
  intros Hinv.
  unfold ProductService.productReview, BaseService.getById, Model.findById, Model.save.
  destruct (rejects c (Model.FindById productId)); [exact Hinv |].
  destruct (List.find _ c) as [product |]; [| exact Hinv].
  destruct (List.find _ (Product.reviews product)); [exact Hinv |].
  destruct (rejects c (Model.Save _)); [exact Hinv |].
  simpl. apply Forall_put; [exact Hinv |].
  simpl. split; [reflexivity |]. intros _.
  unfold Spec.mean. rewrite <- total_sum. now rewrite length_map.
Qed.

(** X11: two reviews of a product fulfilled in a row are by users of
    different [_id], and leave the product with both reviews after
    those it had, in the order of their submission. *)
Theorem reviews_accumulate c c1 c2 productId user1 user2 rating1 rating2
    comment1 comment2 :
  ProductService.productReview rejects c productId user1 rating1 comment1
    = (Fulfilled tt, c1) ->
  ProductService.productReview rejects c1 productId user2 rating2 comment2
    = (Fulfilled tt, c2) ->
  ProductService._id user1 <> ProductService._id user2 /\
  exists product product2,
    List.find (Model.has_id Product._id productId) c = Some product /\
    List.find (Model.has_id Product._id productId) c2 = Some product2 /\
    Product.reviews product2
      = (Product.reviews product
           ++ [ProductService.new_review user1 rating1 comment1;
               ProductService.new_review user2 rating2 comment2])%list /\
    Product.numReviews product2 = (length (Product.reviews product) + 2)%nat.
Proof.
  intros Hfirst Hsecond.
  destruct (productReview_stored _ _ _ _ _ _ _ Hfirst) as (product & Hfind & _ & Hstored).
  destruct (productReview_stored _ _ _ _ _ _ _ Hsecond)
    as (product1 & Hfind1 & Hnew1 & Hstored1).
  assert (product1 = ProductService.reviewed product
                       (ProductService.new_review user1 rating1 comment1))
    as -> by congruence.
  split.
  - intros Hsame. apply find_reviewer_none in Hnew1. apply Hnew1.
    simpl. rewrite map_app. apply in_or_app. right. simpl. now left.
  - exists product. eexists. split; [exact Hfind |]. split; [exact Hstored1 |].
    simpl. rewrite <- app_assoc. simpl. split; [reflexivity |].
    rewrite length_app. simpl. reflexivity.
Qed.

End ReviewOutcomes.

Lemma productReview_rejections_witness :
  snd (ProductService.productReview (@Sample.save_fails nat Product.t) [Sample.mouse] 7
         (Sample.reviewer 1) (num (of_Z 5)) "Good") = [Sample.mouse] /\
  ((exists m, (@Sample.save_fails nat Product.t) [Sample.mouse] (Model.FindById 7%nat) = Some m /\
              StoreError "E11000 duplicate key error"
                = Error ("Error while retrieving this item : " ++ m)) \/
   StoreError "E11000 duplicate key error" = Error "Product not found" \/
   StoreError "E11000 duplicate key error" = Error "Product already reviewed" \/
   (exists item m, (@Sample.save_fails nat Product.t) [Sample.mouse] (Model.Save item) = Some m /\
                   StoreError "E11000 duplicate key error" = StoreError m)).
Proof.
  apply (productReview_rejections (@Sample.save_fails nat Product.t) [Sample.mouse] 7
           (Sample.reviewer 1) (num (of_Z 5)) "Good"
           (StoreError "E11000 duplicate key error")).
  vm_compute. reflexivity.
Defined.

Lemma productReview_of_missing_product_witness :
  ProductService.productReview Model.reliable [Sample.mouse] 9
      (Sample.reviewer 1) (num (of_Z 5)) "Good"
    = (Rejected (Error "Product not found"), [Sample.mouse]).
Proof.
  apply (productReview_of_missing_product Model.reliable [Sample.mouse] 9
           (Sample.reviewer 1) (num (of_Z 5)) "Good").
  - reflexivity.
  - repeat constructor. simpl. lia.
Defined.

Lemma productReview_frame_witness :
  exists product product',
    List.find (Model.has_id Product._id 8) [Sample.mouse; Scenario.keyboard]
      = Some product /\
    List.find (Model.has_id Product._id 8)
      (snd (ProductService.productReview Model.reliable
              [Sample.mouse; Scenario.keyboard] 8 (Sample.reviewer 1)
              (num (of_Z 5)) "Good")) = Some product' /\
    length (snd (ProductService.productReview Model.reliable
                   [Sample.mouse; Scenario.keyboard] 8 (Sample.reviewer 1)
                   (num (of_Z 5)) "Good"))
      = length [Sample.mouse; Scenario.keyboard] /\
    (forall id, id <> 8%nat ->
       List.find (Model.has_id Product._id id)
         (snd (ProductService.productReview Model.reliable
                 [Sample.mouse; Scenario.keyboard] 8 (Sample.reviewer 1)
                 (num (of_Z 5)) "Good"))
         = List.find (Model.has_id Product._id id) [Sample.mouse; Scenario.keyboard]) /\
    Product._id product' = Product._id product /\
    Product.name product' = Product.name product /\
    Product.description product' = Product.description product /\
    Product.price product' = Product.price product /\
    Product.stock product' = Product.stock product /\
    Product.image product' = Product.image product /\
    firstn (length (Product.reviews product)) (Product.reviews product')
      = Product.reviews product.
Proof.
  apply (productReview_frame Model.reliable [Sample.mouse; Scenario.keyboard]
           (snd (ProductService.productReview Model.reliable
                   [Sample.mouse; Scenario.keyboard] 8 (Sample.reviewer 1)
                   (num (of_Z 5)) "Good"))
           8 (Sample.reviewer 1) (num (of_Z 5)) "Good").
  vm_compute. reflexivity.
Defined.

Lemma productReview_keeps_derived_fields_witness :
  Invariant.derived_fields_agree
    (snd (ProductService.productReview Model.reliable [Sample.mouse] 7
            (Sample.reviewer 1) (num (of_Z 5)) "Good")).
Proof.
  apply (productReview_keeps_derived_fields Model.reliable [Sample.mouse] 7
           (Sample.reviewer 1) (num (of_Z 5)) "Good").
  repeat constructor. simpl. intros Hsome. now contradiction Hsome.
Defined.

Lemma reviews_accumulate_witness :
  ProductService._id (Sample.reviewer 1) <> ProductService._id (Sample.reviewer 2) /\
  exists product product2,
    List.find (Model.has_id Product._id 7) [Sample.mouse] = Some product /\
    List.find (Model.has_id Product._id 7)
      (snd (Sample.submit (snd (Sample.submit [Sample.mouse] 1 (num (of_Z 5))))
              2 (str "3"))) = Some product2 /\
    Product.reviews product2
      = (Product.reviews product
           ++ [ProductService.new_review (Sample.reviewer 1) (num (of_Z 5)) "Good";
               ProductService.new_review (Sample.reviewer 2) (str "3") "Good"])%list /\
    Product.numReviews product2 = (length (Product.reviews product) + 2)%nat.
Proof.
  apply (reviews_accumulate Model.reliable [Sample.mouse]
           (snd (Sample.submit [Sample.mouse] 1 (num (of_Z 5))))
           (snd (Sample.submit (snd (Sample.submit [Sample.mouse] 1 (num (of_Z 5))))
                   2 (str "3")))
           7 (Sample.reviewer 1) (Sample.reviewer 2)
           (num (of_Z 5)) (str "3") "Good" "Good").
  - vm_compute. reflexivity.
  - vm_compute. reflexivity.
Defined.

(** ** UserController.register: validation, failures and what it stores *)

Section RegisterOutcomes.
Import UserController.

Variable isValidEmail : string -> bool.
Variable generateToken : nat -> string.
Variable hash : string -> string.
Variable rejects : list User.t -> Model.call nat User.t -> option string.

Ltac unfold_handler :=
  unfold register_try, userService_create, BaseService.create, Model.save,
    Model.findOne, mbind, handler_bind, bind, mret, handler_ret, ret,
    reading, writing, try_catch, res_json in *;
  simpl in *.

Ltac split_cases H :=
  repeat match type of H with
  | context [rejects ?c ?k] => destruct (rejects c k) eqn:?; simpl in H
  | context [List.find ?f ?l] => destruct (List.find f l) eqn:?; simpl in H
  | context [isValidEmail ?e] => destruct (isValidEmail e) eqn:?; simpl in H
  end.

Lemma present_cases (x : option string) :
  (present x = None /\
   match x with Some s => String.eqb s "" | None => true end = true) \/
  (exists v, present x = Some v /\ x = Some v /\
     match x with Some s => String.eqb s "" | None => true end = false).
Proof.
  destruct x as [s |]; simpl; [| now left].
  destruct (String.eqb s ""); [now left | right; now exists s].
Qed.

(** X13: a request without a body, or whose firstname, lastname,
    email or password is missing or empty, is answered 422, or 400 with
    the message of the first such field, before any call of the store:
    the users are left as they were and the handler is fulfilled. *)
Theorem register_refuses_incomplete_body (req_body : option body) (w : world)
    (s : nat) (t : text) :
  sent w = None ->
  Invariant.incomplete req_body = Some (s, t) ->
  register isValidEmail generateToken hash rejects req_body w
    = (Fulfilled tt,
       {| users := users w; sent := Some {| status := s; json := answer t |} |}).
Proof.
  intros Hfresh Hmissing. unfold register, Invariant.incomplete in *.
  assert (Hanswer : forall s t,
            res_json s (answer t) w
              = (Fulfilled tt,
                 {| users := users w;
                    sent := Some {| status := s; json := answer t |} |})).
  { intros s0 t0. unfold res_json. now rewrite Hfresh. }
  destruct req_body as [b |]; [| injection Hmissing as <- <-; apply Hanswer].
  cbv zeta in Hmissing.
  destruct (present_cases (firstname b)) as [[Hp Hm] | (v1 & Hp & _ & Hm)];
    rewrite Hp; rewrite Hm in Hmissing;
    [injection Hmissing as <- <-; apply Hanswer |].
  destruct (present_cases (lastname b)) as [[Hp2 Hm2] | (v2 & Hp2 & _ & Hm2)];
    rewrite Hp2; rewrite Hm2 in Hmissing;
    [injection Hmissing as <- <-; apply Hanswer |].
  destruct (present_cases (email b)) as [[Hp3 Hm3] | (v3 & Hp3 & _ & Hm3)];
    rewrite Hp3; rewrite Hm3 in Hmissing;
    [injection Hmissing as <- <-; apply Hanswer |].
  destruct (present_cases (password b)) as [[Hp4 Hm4] | (v4 & Hp4 & _ & Hm4)];
    rewrite Hp4; rewrite Hm4 in Hmissing;
    [injection Hmissing as <- <-; apply Hanswer | discriminate Hmissing].
Qed.

(** A request is answered at once, or has its four fields and goes
    through the [try] block. *)
Lemma register_cases (req_body : option body) (w : world) :
  (exists s t,
     register isValidEmail generateToken hash rejects req_body w
       = res_json s (answer t) w /\ In s [422; 400]%nat) \/
  (exists b fn ln em pw,
     req_body = Some b /\ firstname b = Some fn /\ lastname b = Some ln /\
     email b = Some em /\ password b = Some pw /\
     register isValidEmail generateToken hash rejects req_body w
       = try_catch (register_try isValidEmail generateToken hash rejects
                      fn ln em pw) Invariant.on_error w).
Proof.
  unfold register. destruct req_body as [b |].
  2: { left. do 2 eexists. split; [reflexivity | now left]. }
  destruct (present_cases (firstname b)) as [[Hp _] | (fn & Hp & Hfn & _)]; rewrite Hp.
  { left. do 2 eexists. split; [reflexivity | right; now left]. }
  destruct (present_cases (lastname b)) as [[Hp2 _] | (ln & Hp2 & Hln & _)]; rewrite Hp2.
  { left. do 2 eexists. split; [reflexivity | right; now left]. }
  destruct (present_cases (email b)) as [[Hp3 _] | (em & Hp3 & Hem & _)]; rewrite Hp3.
  { left. do 2 eexists. split; [reflexivity | right; now left]. }
  destruct (present_cases (password b)) as [[Hp4 _] | (pw & Hp4 & Hpw & _)]; rewrite Hp4.
  { left. do 2 eexists. split; [reflexivity | right; now left]. }
  right. exists b, fn, ln, em, pw. repeat split; assumption || reflexivity.
Qed.

Lemma construct_fresh (c : list User.t) (d : User.data) :
  Forall (fun u => User._id u <> User._id (User.construct hash c d)) c.
Proof.
  simpl. apply List.Forall_forall. intros u Hin.
  assert (Hle : (User._id u <= list_max (map User._id c))%nat).
  { pose proof (proj1 (list_max_le (map User._id c) (list_max (map User._id c)))
                  (Nat.le_refl _)) as Hall.
    rewrite List.Forall_forall in Hall. apply Hall. now apply in_map. }
  lia.
Qed.

Ltac cases :=
  repeat (simpl;
          match goal with
          | |- context [rejects ?c ?k] => destruct (rejects c k) eqn:?
          | |- context [List.find ?f ?l] => destruct (List.find f l) eqn:?
          | |- context [isValidEmail ?e] => destruct (isValidEmail e) eqn:?
          | |- context [sent ?x] => is_var x; destruct (sent x) eqn:?
          end);
  simpl.

(** A request with its four fields goes through the [try] block. *)
Lemma register_complete (b : body) (fn ln em pw : string) (w : world) :
  firstname b = Some fn -> lastname b = Some ln ->
  email b = Some em -> password b = Some pw ->
  Invariant.incomplete (Some b) = None ->
  register isValidEmail generateToken hash rejects (Some b) w
    = try_catch (register_try isValidEmail generateToken hash rejects
                   fn ln em pw) Invariant.on_error w.
Proof.
  intros Hfn Hln Hem Hpw Hcomplete.
  unfold Invariant.incomplete in Hcomplete. cbv zeta in Hcomplete.
  unfold register, present. rewrite Hfn, Hln, Hem, Hpw in *.
  destruct (String.eqb fn ""); [discriminate |].
  destruct (String.eqb ln ""); [discriminate |].
  destruct (String.eqb em ""); [discriminate |].
  destruct (String.eqb pw ""); [discriminate |].
  reflexivity.
Qed.

(** The users after the [try] block and its [catch]. *)
Lemma users_after_try fn ln em pw (w : world) :
  let w' := snd (try_catch (register_try isValidEmail generateToken hash rejects
                              fn ln em pw) Invariant.on_error w) in
  users w' = users w \/
  (isValidEmail em = true /\
   users w' = Model.put User._id (users w)
                (User.construct hash (users w)
                   {| User.data_firstname := fn; User.data_lastname := ln;
                      User.data_email := em; User.data_password := pw |})).
Proof.
  unfold Invariant.on_error. unfold_handler. cases; auto.
Qed.

(** X14: whatever the request, the response and the store, every user
    that [register] adds has the email of the request, and
    [isValidEmail] accepts that email. *)
Theorem register_stores_valid_emails_only (req_body : option body) (w : world)
    (u : User.t) :
  In u (users (snd (register isValidEmail generateToken hash rejects req_body w))) ->
  In u (users w) \/
  (isValidEmail (User.email u) = true /\
   exists b, req_body = Some b /\ email b = Some (User.email u)).
Proof.
  destruct (register_cases req_body w)
    as [(s & t & -> & _) | (b & fn & ln & em & pw & -> & _ & _ & Hem & _ & ->)].
  - unfold res_json. destruct (sent w); simpl; now left.
  - destruct (users_after_try fn ln em pw w) as [-> | [Hvalid ->]]; [now left |].
    intros Hin. apply In_put in Hin as [Hin | ->]; [now left |].
    right. simpl. split; [exact Hvalid | now exists b].
Qed.

(** X15: on a response not yet sent, [register] always sends one, with
    status 422, 400, 409, 201 or 500; it rejects in one case only,
    after its answer 409, and then with the error of a second answer. *)
Theorem register_always_answers (req_body : option body) (w : world) :
  sent w = None ->
  exists resp,
    sent (snd (register isValidEmail generateToken hash rejects req_body w))
      = Some resp /\
    In (status resp) [422; 400; 409; 201; 500]%nat /\
    (forall e,
       fst (register isValidEmail generateToken hash rejects req_body w)
         = Rejected e ->
       e = HeadersSentError /\
       resp = {| status := 409; json := answer errorMessage_user_already_exist |}).
Proof.
  intros Hfresh.
  destruct (register_cases req_body w)
    as [(s & t & -> & Hs) | (b & fn & ln & em & pw & _ & _ & _ & _ & _ & ->)].
  - unfold res_json. rewrite Hfresh. simpl. eexists. split; [reflexivity |].
    split; [| discriminate].
    simpl. destruct Hs as [<- | [<- | []]]; tauto.
  - destruct w as [c none]. simpl in Hfresh. subst none.
    unfold Invariant.on_error. unfold_handler.
    cases;
      (eexists; split; [reflexivity |]; split; [simpl; tauto |]);
      try discriminate; intros e [= <-]; split; reflexivity.
Qed.

(** X16: when the store rejects the lookup of the email, or when no
    user has the email, the email is valid and the store rejects the
    save, [register] answers 500 with the default message, stores
    nothing and is fulfilled. *)
Theorem register_store_failure (b : body) (fn ln em pw : string) (w : world)
    (m : string) :
  firstname b = Some fn -> lastname b = Some ln ->
  email b = Some em -> password b = Some pw ->
  Invariant.incomplete (Some b) = None ->
  sent w = None ->
  rejects (users w) Model.FindOne = Some m \/
  (rejects (users w) Model.FindOne = None /\
   List.find (fun u => String.eqb (User.email u) em) (users w) = None /\
   isValidEmail em = true /\
   rejects (users w)
     (Model.Save (User.construct hash (users w)
                    {| User.data_firstname := fn; User.data_lastname := ln;
                       User.data_email := em; User.data_password := pw |}))
     = Some m) ->
  register isValidEmail generateToken hash rejects (Some b) w
    = (Fulfilled tt,
       {| users := users w;
          sent := Some {| status := 500; json := answer errorMessage_default |} |}).
Proof.
  intros Hfn Hln Hem Hpw Hcomplete Hfresh Hfail.
  rewrite (register_complete b fn ln em pw w Hfn Hln Hem Hpw Hcomplete).
  unfold Invariant.on_error. unfold_handler.
  destruct Hfail as [Hread | (Hread & Hnone & Hvalid & Hsave)].
  - rewrite Hread. simpl. now rewrite Hfresh.
  - rewrite Hread. simpl. rewrite Hnone. simpl. rewrite Hvalid. simpl.
    rewrite Hsave. simpl. now rewrite Hfresh.
Qed.

(** X17: a registration answered 201 is one with its four fields,
    whose email [isValidEmail] accepts and no user had; the user it
    adds comes last, is built from the fields of the body, and has an
    [_id] that no user had. *)
Theorem register_appends_user (req_body : option body) (w : world) (p : payload) :
  sent w = None ->
  sent (snd (register isValidEmail generateToken hash rejects req_body w))
    = Some {| status := 201; json := p |} ->
  exists b fn ln em pw,
    req_body = Some b /\ firstname b = Some fn /\ lastname b = Some ln /\
    email b = Some em /\ password b = Some pw /\
    isValidEmail em = true /\
    Forall (fun u => User.email u <> em) (users w) /\
    let createdUser :=
      User.construct hash (users w)
        {| User.data_firstname := fn; User.data_lastname := ln;
           User.data_email := em; User.data_password := pw |} in
    users (snd (register isValidEmail generateToken hash rejects req_body w))
      = (users w ++ [createdUser])%list /\
    ~ In (User._id createdUser) (map User._id (users w)).
Proof.
  intros Hfresh.
  destruct (register_cases req_body w)
    as [(s & t & -> & Hs) | (b & fn & ln & em & pw & -> & Hfn & Hln & Hem & Hpw & ->)].
  - unfold res_json. rewrite Hfresh. simpl. intros [= Hstatus _]. subst s.
    destruct Hs as [Hs | [Hs | []]]; discriminate Hs.
  - intros Hsent. exists b, fn, ln, em, pw. repeat (split; [eassumption || reflexivity |]).
    destruct w as [c none]. simpl in Hfresh. subst none.
    revert Hsent. unfold Invariant.on_error. unfold_handler.
    cases; try discriminate.
    intros _. split; [reflexivity |]. split.
    + apply List.Forall_forall. intros u Hin Hemail.
      match goal with
      | H : List.find _ c = None |- _ =>
          pose proof (List.find_none _ _ H u Hin) as Hno
      end.
      simpl in Hno. rewrite Hemail, String.eqb_refl in Hno. discriminate.
    + split.
      * apply put_fresh. apply construct_fresh.
      * intros Hin. apply in_map_iff in Hin as (u & Hid & Hin).
        pose proof (construct_fresh c
                      {| User.data_firstname := fn; User.data_lastname := ln;
                         User.data_email := em; User.data_password := pw |}) as Hall.
        rewrite List.Forall_forall in Hall. apply (Hall u Hin). exact Hid.
Qed.
End RegisterOutcomes.

Lemma register_refuses_incomplete_body_witness :
  UserController.register Sample.isValidEmail Sample.generateToken Sample.hash
      Model.reliable Scenario.nameless (Sample.start [Sample.alice])
    = (Fulfilled tt,
       {| UserController.users := UserController.users (Sample.start [Sample.alice]);
          UserController.sent :=
            Some {| UserController.status := 400;
                    UserController.json :=
                      UserController.answer
                        UserController.errorMessage_user_lastname |} |}).
Proof.
  apply (register_refuses_incomplete_body Sample.isValidEmail Sample.generateToken
           Sample.hash Model.reliable Scenario.nameless (Sample.start [Sample.alice])
           400 UserController.errorMessage_user_lastname).
  - reflexivity.
  - reflexivity.
Defined.

Lemma register_stores_valid_emails_only_witness :
  In Scenario.carol_created (UserController.users (Sample.start [Sample.alice])) \/
  (Sample.isValidEmail (User.email Scenario.carol_created) = true /\
   exists b, Some Scenario.carol = Some b /\
             UserController.email b = Some (User.email Scenario.carol_created)).
Proof.
  apply (register_stores_valid_emails_only Sample.isValidEmail Sample.generateToken
           Sample.hash Model.reliable (Some Scenario.carol)
           (Sample.start [Sample.alice]) Scenario.carol_created).
  vm_compute. right. left. reflexivity.
Defined.

Lemma register_always_answers_witness :
  exists resp,
    UserController.sent
      (snd (UserController.register Sample.isValidEmail Sample.generateToken
              Sample.hash Model.reliable (Sample.registration "alice@shop.io")
              (Sample.start [Sample.alice]))) = Some resp /\
    In (UserController.status resp) [422; 400; 409; 201; 500]%nat /\
    (forall e,
       fst (UserController.register Sample.isValidEmail Sample.generateToken
              Sample.hash Model.reliable (Sample.registration "alice@shop.io")
              (Sample.start [Sample.alice])) = Rejected e ->
       e = HeadersSentError /\
       resp = {| UserController.status := 409;
                 UserController.json :=
                   UserController.answer
                     UserController.errorMessage_user_already_exist |}).
Proof.
  apply (register_always_answers Sample.isValidEmail Sample.generateToken
           Sample.hash Model.reliable (Sample.registration "alice@shop.io")
           (Sample.start [Sample.alice])).
  reflexivity.
Defined.

Lemma register_store_failure_witness :
  UserController.register Sample.isValidEmail Sample.generateToken Sample.hash
      Sample.save_fails (Some Scenario.carol) (Sample.start [Sample.alice])
    = (Fulfilled tt,
       {| UserController.users := UserController.users (Sample.start [Sample.alice]);
          UserController.sent :=
            Some {| UserController.status := 500;
                    UserController.json :=
                      UserController.answer UserController.errorMessage_default |} |}).
Proof.
  apply (register_store_failure Sample.isValidEmail Sample.generateToken
           Sample.hash Sample.save_fails Scenario.carol
           "Carol" "Petit" "carol@shop.io" "tr0ub4dor"
           (Sample.start [Sample.alice]) "E11000 duplicate key error").
  - reflexivity.
  - reflexivity.
  - reflexivity.
  - reflexivity.
  - reflexivity.
  - reflexivity.
  - right. repeat split; vm_compute; reflexivity.
Defined.

Lemma register_appends_user_witness :
  exists b fn ln em pw,
    Some Scenario.carol = Some b /\
    UserController.firstname b = Some fn /\ UserController.lastname b = Some ln /\
    UserController.email b = Some em /\ UserController.password b = Some pw /\
    Sample.isValidEmail em = true /\
    Forall (fun u => User.email u <> em)
      (UserController.users (Sample.start [Sample.alice])) /\
    let createdUser :=
      User.construct Sample.hash (UserController.users (Sample.start [Sample.alice]))
        {| User.data_firstname := fn; User.data_lastname := ln;
           User.data_email := em; User.data_password := pw |} in
    UserController.users
      (snd (UserController.register Sample.isValidEmail Sample.generateToken
              Sample.hash Model.reliable (Some Scenario.carol)
              (Sample.start [Sample.alice])))
      = (UserController.users (Sample.start [Sample.alice]) ++ [createdUser])%list /\
    ~ In (User._id createdUser)
        (map User._id (UserController.users (Sample.start [Sample.alice]))).
Proof.
  apply (register_appends_user Sample.isValidEmail Sample.generateToken
           Sample.hash Model.reliable (Some Scenario.carol)
           (Sample.start [Sample.alice])
           {| UserController.message := UserController.successMessage_user_created;
              UserController.data :=
                Some (UserController.created_data Sample.generateToken
                        Scenario.carol_created) |}).
  - reflexivity.
  - vm_compute. reflexivity.
Defined.

(** ** The other handlers: how many answers, and what they carry *)

Section ServiceHandlers.
Import UserRoutes.
Context {D P : Type}.
Variable authentificationUser : list User.t -> promise (envelope D) * list User.t.
Variable allUsers : list User.t -> promise listed * list User.t.
Variable userProfile : list User.t -> promise P * list User.t.
Variable updateUserProfile_service :
  list User.t -> promise (envelope D) * list User.t.

Ltac unfold_express :=
  unfold Express.try_catch, Express.calling, Express.json, Express.status_json,
    mbind, Express.handler_bind, Express.bind, mret, Express.handler_ret,
    Express.ret in *;
  simpl in *.

(** X18: on a response not yet sent, [login] is always fulfilled and
    sends one response: with the status of the service and, when the
    service reports an error, its message without any data; with the
    status, message and data of the service otherwise; 500 with the
    default message when the service throws. *)
Theorem login_outcome (w : @Express.exchange (list User.t) (json D)) :
  Express.sent w = None ->
  login authentificationUser w
    = (Fulfilled tt,
       {| Express.store := snd (authentificationUser (Express.store w));
          Express.sent :=
            Some match fst (authentificationUser (Express.store w)) with
                 | Rejected _ => (500%nat, message_only (catalog errorMessage_default))
                 | Fulfilled a =>
                     (status a,
                      if error a then message_only (told (message a))
                      else message_data (told (message a)) (data a))
                 end |}).
Proof.
  intros Hfresh. destruct w as [c none]. simpl in Hfresh. subst none.
  unfold login. unfold_express.
  destruct (authentificationUser c) as [[a | e] c']; simpl; [| reflexivity].
  destruct (error a); reflexivity.
Qed.

(** X19: when [allUsers] resolves to the number 0, [getUsers] answers
    400 and then, for want of a [return], answers again: the client
    has the 400 and the handler rejects; when it resolves to anything
    else the answer is 200 with that value as data, an empty list
    included; when it throws the answer is 500. *)
Theorem getUsers_outcome (w : @Express.exchange (list User.t) (json listed)) :
  Express.sent w = None ->
  getUsers allUsers w
    = match fst (allUsers (Express.store w)) with
      | Rejected _ =>
          (Fulfilled tt,
           {| Express.store := snd (allUsers (Express.store w));
              Express.sent :=
                Some (500%nat, message_only (catalog errorMessage_default)) |})
      | Fulfilled users =>
          if is_zero users
          then (Rejected HeadersSentError,
                {| Express.store := snd (allUsers (Express.store w));
                   Express.sent :=
                     Some (400%nat, message_only (catalog errorMessage_collection)) |})
          else (Fulfilled tt,
                {| Express.store := snd (allUsers (Express.store w));
                   Express.sent :=
                     Some (200%nat,
                           message_data
                             (catalog successMessage_user_collection_informations)
                             users) |})
      end.
Proof.
  intros Hfresh. destruct w as [c none]. simpl in Hfresh. subst none.
  unfold getUsers. unfold_express.
  destruct (allUsers c) as [[users | e] c']; simpl; [| reflexivity].
  destruct (is_zero users); reflexivity.
Qed.

(** X20: when the service reports an error, [updateUserProfile]
    answers its status with the message alone and then, for want of a
    [return], answers again: the client has the error and the handler
    rejects; without an error the answer is the status, message and
    data of the service; when the service throws the answer is 400. *)
Theorem updateUserProfile_outcome (w : @Express.exchange (list User.t) (json D)) :
  Express.sent w = None ->
  updateUserProfile updateUserProfile_service w
    = match fst (updateUserProfile_service (Express.store w)) with
      | Rejected _ =>
          (Fulfilled tt,
           {| Express.store := snd (updateUserProfile_service (Express.store w));
              Express.sent :=
                Some (400%nat, message_only (catalog errorMessage_default)) |})
      | Fulfilled a =>
          if error a
          then (Rejected HeadersSentError,
                {| Express.store := snd (updateUserProfile_service (Express.store w));
                   Express.sent := Some (status a, bare_message (told (message a))) |})
          else (Fulfilled tt,
                {| Express.store := snd (updateUserProfile_service (Express.store w));
                   Express.sent :=
                     Some (status a,
                           message_data (told (message a)) (data a)) |})
      end.
Proof.
  intros Hfresh. destruct w as [c none]. simpl in Hfresh. subst none.
  unfold updateUserProfile. unfold_express.
  destruct (updateUserProfile_service c) as [[a | e] c']; simpl; [| reflexivity].
  destruct (error a); reflexivity.
Qed.

(** X21: on a response not yet sent, [getUserProfile] is always
    fulfilled and sends one response: the profile alone with status
    200, or 404 with the default message when the service throws. *)
Theorem getUserProfile_outcome (w : @Express.exchange (list User.t) (json P)) :
  Express.sent w = None ->
  getUserProfile userProfile w
    = (Fulfilled tt,
       {| Express.store := snd (userProfile (Express.store w));
          Express.sent :=
            Some match fst (userProfile (Express.store w)) with
                 | Rejected _ => (404%nat, message_only (catalog errorMessage_default))
                 | Fulfilled profile => (200%nat, bare_data profile)
                 end |}).
Proof.
  intros Hfresh. destruct w as [c none]. simpl in Hfresh. subst none.
  unfold getUserProfile. unfold_express.
  destruct (userProfile c) as [[profile | e] c']; reflexivity.
Qed.
End ServiceHandlers.

Section RecordHandlers.
Import UserRoutes.
Context {Data : Type}.
Variable modelName : string.
Variable assign : User.t -> Data -> User.t.
Variable rejects : list User.t -> Model.call nat User.t -> option string.

Ltac unfold_express :=
  unfold Express.try_catch, Express.calling, Express.json, Express.status_json,
    mbind, Express.handler_bind, Express.bind, mret, Express.handler_ret,
    Express.ret in *;
  simpl in *.

(** X22: on a response not yet sent, [getUserById] is always fulfilled,
    leaves the users as they were and sends one response: 500 when the
    store rejects the read, 403 when no user has the id, and else 200
    with the [_id], firstname, lastname, email and isAdmin of the user,
    among which there is no password. *)
Theorem getUserById_outcome (id : nat)
    (w : @Express.exchange (list User.t) (json (list (string * Object.value)))) :
  Express.sent w = None ->
  getUserById rejects id w
    = (Fulfilled tt,
       {| Express.store := Express.store w;
          Express.sent :=
            Some match Model.findById User._id rejects (Express.store w) id with
                 | Rejected _ => (500%nat, message_only (catalog errorMessage_default))
                 | Fulfilled None =>
                     (403%nat, message_only (catalog errorMessage_user_not_found))
                 | Fulfilled (Some user) =>
                     (200%nat,
                      message_data (catalog successMessage_user_informations)
                        (informations user))
                 end |}) /\
  (forall user, map fst (informations user)
                = ["_id"; "firstname"; "lastname"; "email"; "isAdmin"]).
Proof.
  intros Hfresh. destruct w as [c none]. simpl in Hfresh. subst none.
  split; [| reflexivity].
  unfold getUserById, BaseService.getById. unfold_express.
  destruct (Model.findById User._id rejects c id) as [[user |] | e]; reflexivity.
Qed.

Lemma update_rejected_store (c : list User.t) (id : nat) (body : Data) e :
  fst (BaseService.update modelName User._id rejects assign c id body) = Rejected e ->
  snd (BaseService.update modelName User._id rejects assign c id body) = c.
Proof.
  unfold BaseService.update, Model.findById, Model.save.
  destruct (rejects c (Model.FindById id)); [reflexivity |].
  destruct (List.find _ c) as [item |]; [| reflexivity].
  destruct (rejects c (Model.Save _)); [reflexivity | discriminate].
Qed.

Lemma delete_rejected_store (c : list User.t) (id : nat) e :
  fst (BaseService.delete modelName User._id rejects c id) = Rejected e ->
  snd (BaseService.delete modelName User._id rejects c id) = c.
Proof.
  unfold BaseService.delete, Model.findById, Model.remove.
  destruct (rejects c (Model.FindById id)); [reflexivity |].
  destruct (List.find _ c) as [item |]; [| reflexivity].
  destruct (rejects c (Model.Remove item)); [reflexivity | discriminate].
Qed.

(** X23: [updateUser] and [deleteUser] have no [try] block: when the
    operation of the service rejects, for an id that no user has as
    for a store that fails, the handler rejects with the same error,
    sends no response and leaves the users as they were. *)
Theorem failed_write_is_not_answered (id : nat) (body : Data)
    (w : @Express.exchange (list User.t) (json User.t)) :
  (forall e,
     fst (BaseService.update modelName User._id rejects assign
            (Express.store w) id body) = Rejected e ->
     updateUser modelName assign rejects id body w = (Rejected e, w)) /\
  (forall e,
     fst (BaseService.delete modelName User._id rejects (Express.store w) id)
       = Rejected e ->
     deleteUser modelName rejects id w = (Rejected e, w)).
Proof.
  destruct w as [c s]. split; intros e Hrej.
  - pose proof (update_rejected_store c id body e Hrej) as Hstore.
    unfold updateUser. unfold_express.
    destruct (BaseService.update modelName User._id rejects assign c id body)
      as [r c']. simpl in *. subst. reflexivity.
  - pose proof (delete_rejected_store c id e Hrej) as Hstore.
    unfold deleteUser. unfold_express.
    destruct (BaseService.delete modelName User._id rejects c id) as [r c'].
    simpl in *. subst. reflexivity.
Qed.

(** X24: when the user exists and the store accepts the removal,
    [deleteUser] answers 200, never 403, with the removed user as data,
    and no user of that [_id] is left; a second [deleteUser] of the id
    is not answered and rejects with the not-found error. *)
Theorem deleteUser_then_again (id : nat) (user : User.t)
    (w : @Express.exchange (list User.t) (json User.t)) :
  Express.sent w = None ->
  Model.findById User._id rejects (Express.store w) id = Fulfilled (Some user) ->
  rejects (Express.store w) (Model.Remove user) = None ->
  let c' := List.filter (fun d => negb (Model.has_id User._id id d)) (Express.store w) in
  rejects c' (Model.FindById id) = None ->
  deleteUser modelName rejects id w
    = (Fulfilled tt,
       {| Express.store := c';
          Express.sent :=
            Some (200%nat,
                  message_data (catalog successMessage_user_deleted) user) |}) /\
  List.find (Model.has_id User._id id) c' = None /\
  deleteUser modelName rejects id {| Express.store := c'; Express.sent := None |}
    = (Rejected (Error ("Error on deleting item : " ++ modelName ++ " not found")),
       {| Express.store := c'; Express.sent := None |}).
Proof.
  intros Hfresh Hfind Hremove c' Hread.
  destruct w as [c none]. simpl in *. subst none.
  assert (Hid : User._id user = id).
  { unfold Model.findById in Hfind.
    destruct (rejects c (Model.FindById id)); [discriminate |].
    injection Hfind as Hfind. now apply find_has_id in Hfind. }
  split; [| split].
  - unfold deleteUser, BaseService.delete, Model.remove. unfold_express.
    rewrite Hfind, Hremove, Hid. reflexivity.
  - apply find_removed.
  - unfold deleteUser, BaseService.delete, Model.findById. unfold_express.
    rewrite Hread. unfold c'. now rewrite find_removed.
Qed.

(** X25: when the user exists and the store accepts the save,
    [updateUser] answers 200 with the updated user itself as data, not
    a projection of it, and the users hold that user. *)
Theorem updateUser_answers_with_record (id : nat) (body : Data) (user : User.t)
    (w : @Express.exchange (list User.t) (json User.t)) :
  Express.sent w = None ->
  Model.findById User._id rejects (Express.store w) id = Fulfilled (Some user) ->
  rejects (Express.store w) (Model.Save (assign user body)) = None ->
  let updated := assign user body in
  updateUser modelName assign rejects id body w
    = (Fulfilled tt,
       {| Express.store := Model.put User._id (Express.store w) updated;
          Express.sent :=
            Some (200%nat,
                  message_data (catalog successMessage_user_updated) updated) |}) /\
  In updated (Model.put User._id (Express.store w) updated).
Proof.
  intros Hfresh Hfind Hsave updated. subst updated.
  destruct w as [c none]. simpl in *. subst none.
  split.
  - unfold updateUser, BaseService.update, Model.save. unfold_express.
    rewrite Hfind, Hsave. reflexivity.
  - pose proof (find_put User._id c (assign user body)) as Hput.
    apply List.find_some in Hput. tauto.
Qed.
End RecordHandlers.

Lemma login_outcome_witness :
  UserRoutes.login Scenario.refused (Scenario.begin [Sample.alice])
    = (Fulfilled tt,
       {| Express.store := snd (Scenario.refused [Sample.alice]);
          Express.sent :=
            Some match fst (Scenario.refused [Sample.alice]) with
                 | Rejected _ =>
                     (500%nat,
                      UserRoutes.message_only
                        (UserRoutes.catalog UserRoutes.errorMessage_default))
                 | Fulfilled a =>
                     (UserRoutes.status a,
                      if UserRoutes.error a
                      then UserRoutes.message_only
                             (UserRoutes.told (UserRoutes.message a))
                      else UserRoutes.message_data
                             (UserRoutes.told (UserRoutes.message a))
                             (UserRoutes.data a))
                 end |}).
Proof.
  apply (login_outcome Scenario.refused (Scenario.begin [Sample.alice])).
  reflexivity.
Defined.

Lemma getUsers_outcome_witness :
  UserRoutes.getUsers Scenario.none_listed (Scenario.begin [])
    = match fst (Scenario.none_listed []) with
      | Rejected _ =>
          (Fulfilled tt,
           {| Express.store := snd (Scenario.none_listed []);
              Express.sent :=
                Some (500%nat,
                      UserRoutes.message_only
                        (UserRoutes.catalog UserRoutes.errorMessage_default)) |})
      | Fulfilled users =>
          if UserRoutes.is_zero users
          then (Rejected HeadersSentError,
                {| Express.store := snd (Scenario.none_listed []);
                   Express.sent :=
                     Some (400%nat,
                           UserRoutes.message_only
                             (UserRoutes.catalog UserRoutes.errorMessage_collection)) |})
          else (Fulfilled tt,
                {| Express.store := snd (Scenario.none_listed []);
                   Express.sent :=
                     Some (200%nat,
                           UserRoutes.message_data
                             (UserRoutes.catalog
                                UserRoutes.successMessage_user_collection_informations)
                             users) |})
      end.
Proof.
  apply (getUsers_outcome Scenario.none_listed (Scenario.begin [])).
  reflexivity.
Defined.

Lemma updateUserProfile_outcome_witness :
  UserRoutes.updateUserProfile Scenario.refused (Scenario.begin [Sample.alice])
    = match fst (Scenario.refused [Sample.alice]) with
      | Rejected _ =>
          (Fulfilled tt,
           {| Express.store := snd (Scenario.refused [Sample.alice]);
              Express.sent :=
                Some (400%nat,
                      UserRoutes.message_only
                        (UserRoutes.catalog UserRoutes.errorMessage_default)) |})
      | Fulfilled a =>
          if UserRoutes.error a
          then (Rejected HeadersSentError,
                {| Express.store := snd (Scenario.refused [Sample.alice]);
                   Express.sent :=
                     Some (UserRoutes.status a,
                           UserRoutes.bare_message
                             (UserRoutes.told (UserRoutes.message a))) |})
          else (Fulfilled tt,
                {| Express.store := snd (Scenario.refused [Sample.alice]);
                   Express.sent :=
                     Some (UserRoutes.status a,
                           UserRoutes.message_data
                             (UserRoutes.told (UserRoutes.message a))
                             (UserRoutes.data a)) |})
      end.
Proof.
  apply (updateUserProfile_outcome Scenario.refused (Scenario.begin [Sample.alice])).
  reflexivity.
Defined.

Lemma getUserProfile_outcome_witness :
  UserRoutes.getUserProfile (Scenario.profile_of 1) (Scenario.begin [Sample.alice])
    = (Fulfilled tt,
       {| Express.store := snd (Scenario.profile_of 1 [Sample.alice]);
          Express.sent :=
            Some match fst (Scenario.profile_of 1 [Sample.alice]) with
                 | Rejected _ =>
                     (404%nat,
                      UserRoutes.message_only
                        (UserRoutes.catalog UserRoutes.errorMessage_default))
                 | Fulfilled profile => (200%nat, UserRoutes.bare_data profile)
                 end |}).
Proof.
  apply (getUserProfile_outcome (Scenario.profile_of 1) (Scenario.begin [Sample.alice])).
  reflexivity.
Defined.

Lemma getUserById_outcome_witness :
  UserRoutes.getUserById Model.reliable 5 (Scenario.begin [Sample.alice])
    = (Fulfilled tt,
       {| Express.store := [Sample.alice];
          Express.sent :=
            Some match Model.findById User._id Model.reliable [Sample.alice] 5 with
                 | Rejected _ =>
                     (500%nat,
                      UserRoutes.message_only
                        (UserRoutes.catalog UserRoutes.errorMessage_default))
                 | Fulfilled None =>
                     (403%nat,
                      UserRoutes.message_only
                        (UserRoutes.catalog UserRoutes.errorMessage_user_not_found))
                 | Fulfilled (Some user) =>
                     (200%nat,
                      UserRoutes.message_data
                        (UserRoutes.catalog UserRoutes.successMessage_user_informations)
                        (UserRoutes.informations user))
                 end |}) /\
  (forall user, map fst (UserRoutes.informations user)
                = ["_id"; "firstname"; "lastname"; "email"; "isAdmin"]).
Proof.
  apply (getUserById_outcome Model.reliable 5 (Scenario.begin [Sample.alice])).
  reflexivity.
Defined.

Lemma failed_write_is_not_answered_witness :
  UserRoutes.updateUser "User" Scenario.relastname Model.reliable 5 (Some "Dupont")
      (Scenario.begin [Sample.alice])
    = (Rejected (Error "Error on updating item : User not found"),
       Scenario.begin [Sample.alice]).
Proof.
  apply (proj1 (failed_write_is_not_answered "User" Scenario.relastname
                  Model.reliable 5 (Some "Dupont") (Scenario.begin [Sample.alice]))).
  reflexivity.
Defined.

Lemma deleteUser_then_again_witness :
  let c' := List.filter (fun d => negb (Model.has_id User._id 1 d))
              [Sample.alice; Scenario.bob] in
  UserRoutes.deleteUser "User" Model.reliable 1
      (Scenario.begin [Sample.alice; Scenario.bob])
    = (Fulfilled tt,
       {| Express.store := c';
          Express.sent :=
            Some (200%nat,
                  UserRoutes.message_data
                    (UserRoutes.catalog UserRoutes.successMessage_user_deleted)
                    Sample.alice) |}) /\
  List.find (Model.has_id User._id 1) c' = None /\
  UserRoutes.deleteUser "User" Model.reliable 1
      {| Express.store := c'; Express.sent := None |}
    = (Rejected (Error ("Error on deleting item : " ++ "User" ++ " not found")),
       {| Express.store := c'; Express.sent := None |}).
Proof.
  apply (deleteUser_then_again "User" Model.reliable 1 Sample.alice
           (Scenario.begin [Sample.alice; Scenario.bob])).
  - reflexivity.
  - reflexivity.
  - reflexivity.
  - reflexivity.
Defined.

Lemma updateUser_answers_with_record_witness :
  let updated := Scenario.relastname Sample.alice (Some "Dupont") in
  UserRoutes.updateUser "User" Scenario.relastname Model.reliable 1 (Some "Dupont")
      (Scenario.begin [Sample.alice; Scenario.bob])
    = (Fulfilled tt,
       {| Express.store :=
            Model.put User._id [Sample.alice; Scenario.bob] updated;
          Express.sent :=
            Some (200%nat,
                  UserRoutes.message_data
                    (UserRoutes.catalog UserRoutes.successMessage_user_updated)
                    updated) |}) /\
  In updated (Model.put User._id [Sample.alice; Scenario.bob] updated).
Proof.
  apply (updateUser_answers_with_record "User" Scenario.relastname Model.reliable
           1 (Some "Dupont") Sample.alice
           (Scenario.begin [Sample.alice; Scenario.bob])).
  - reflexivity.
  - reflexivity.
  - reflexivity.
Defined.


(** * Stores that validate what they save *)

(** ** Number on strings of digits *)

Lemma digit_cases (d : N) :
  (d < 10)%N -> In d [0; 1; 2; 3; 4; 5; 6; 7; 8; 9]%N.
Proof. intros Hd. simpl. lia. Qed.

Ltac each_digit H :=
  apply digit_cases in H; simpl in H;
  repeat (destruct H as [H | H]; [subst |]); [.. | contradiction].

Lemma digit_in_char (d : N) :
  (d < 10)%N -> digit_in 10 (Invariant.digit_char d) = Some d.
Proof. intros Hd. each_digit Hd; reflexivity. Qed.

Lemma read_digits_numeral (ds : list N) (acc : N) (count : nat) :
  Forall (fun d => (d < 10)%N) ds ->
  read_digits 10 acc count (map Invariant.digit_char ds)
    = (fold_left (fun a d => (a * 10 + d)%N) ds acc, (count + length ds)%nat, []).
Proof.
  intros Hds. revert acc count.
  induction Hds as [| d ds Hd _ IH]; intros acc count; simpl.
  - now rewrite Nat.add_0_r.
  - rewrite (digit_in_char d Hd), IH. now rewrite Nat.add_succ_r.
Qed.

Lemma is_white_digit (d : N) :
  (d < 10)%N -> is_white (Invariant.digit_char d) = false.
Proof. intros Hd. each_digit Hd; reflexivity. Qed.

Lemma is_white2_digit (d : N) (x : ascii) :
  (d < 10)%N ->
  is_white2 (Invariant.digit_char d) x = false /\
  is_white2 x (Invariant.digit_char d) = false.
Proof.
  intros Hd. unfold is_white2.
  each_digit Hd; (split; [reflexivity | apply andb_false_r]).
Qed.

Lemma is_white3_digit (d : N) (x y : ascii) :
  (d < 10)%N ->
  is_white3 (Invariant.digit_char d) x y = false /\
  is_white3 x y (Invariant.digit_char d) = false.
Proof.
  intros Hd. unfold is_white3.
  each_digit Hd; (split; [reflexivity |]);
    match goal with
    | |- context [nat_of_ascii (Invariant.digit_char ?n)] =>
        let v := eval vm_compute in (nat_of_ascii (Invariant.digit_char n)) in
        change (nat_of_ascii (Invariant.digit_char n)) with v
    end;
    cbv zeta; cbn [Nat.eqb Nat.leb andb orb];
    now rewrite ?andb_false_r.
Qed.

(** White space is not skipped at a digit, from either end. *)
Lemma skip_white_digit (backwards : bool) (d : N) (cs : list ascii) :
  (d < 10)%N ->
  skip_white backwards (Invariant.digit_char d :: cs) = Invariant.digit_char d :: cs.
Proof.
  intros Hd. cbn [skip_white]. rewrite (is_white_digit d Hd).
  destruct cs as [| b [| c cs]]; [reflexivity | |].
  - destruct (is_white2_digit d b Hd) as [-> ->]. now destruct backwards.
  - destruct (is_white2_digit d b Hd) as [-> ->].
    destruct (is_white3_digit d b c Hd) as [-> _].
    destruct (is_white3_digit d c b Hd) as [_ ->].
    now destruct backwards.
Qed.
Lemma trim_numeral (ds : list N) :
  Forall (fun d => (d < 10)%N) ds ->
  trim (map Invariant.digit_char ds) = map Invariant.digit_char ds.
Proof.
  intros Hds. unfold trim.
  assert (Hhead : forall b l, Forall (fun d => (d < 10)%N) l ->
            skip_white b (map Invariant.digit_char l) = map Invariant.digit_char l).
  { intros b l Hl. destruct Hl as [| d l Hd _]; [reflexivity |].
    simpl map. now apply skip_white_digit. }
  rewrite (Hhead false ds Hds), <- map_rev.
  rewrite Hhead by now apply List.Forall_rev.
  now rewrite map_rev, rev_involutive.
Qed.


Lemma StringToNumber_chars (c : ascii) (r : list ascii) (m : N) (e : Z) :
  trim (c :: r) = c :: r ->
  parse_nondecimal (c :: r) = None ->
  read_sign (c :: r) = (false, c :: r) ->
  String.eqb (string_of_list_ascii (c :: r)) "Infinity" = false ->
  parse_decimal (c :: r) = Some (m, e) ->
  StringToNumber (string_of_list_ascii (c :: r)) = of_decimal false m e.
Proof.
  intros Htrim Hnondecimal Hsign Hinfinity Hdecimal. unfold StringToNumber.
  rewrite list_ascii_of_string_of_list_ascii, Htrim.
  cbv beta iota. now rewrite Hnondecimal, Hsign, Hinfinity, Hdecimal.
Qed.

Lemma of_decimal_integer (n : N) : of_decimal false n 0 = of_Z (Z.of_N n).
Proof.
  destruct n as [| p]; [reflexivity |].
  unfold of_decimal, of_Z. simpl Z.of_N. cbv iota.
  change (10 ^ 0)%Z with 1%Z. simpl Z.to_pos.
  now rewrite Pos.mul_1_r.
Qed.

Lemma StringToNumber_numeral (ds : list N) :
  ds <> [] -> Forall (fun d => (d < 10)%N) ds ->
  StringToNumber (Invariant.numeral ds)
    = of_Z (Z.of_N (Invariant.numeral_value ds)).
Proof.
  intros Hsome Hds. unfold Invariant.numeral.
  destruct ds as [| d ds]; [contradiction |].
  pose proof (trim_numeral (d :: ds) Hds) as Htrim.
  pose proof (read_digits_numeral (d :: ds) 0 0 Hds) as Hread.
  inversion Hds as [| ? ? Hd Hrest]; subst.
  rewrite <- of_decimal_integer.
  change (map Invariant.digit_char (d :: ds))
    with (Invariant.digit_char d :: map Invariant.digit_char ds) in *.
  apply StringToNumber_chars.
  - exact Htrim.
  - destruct Hrest as [| d' ds' Hd' _]; each_digit Hd; try reflexivity;
      each_digit Hd'; reflexivity.
  - each_digit Hd; reflexivity.
  - each_digit Hd; reflexivity.
  - unfold parse_decimal. rewrite Hread. reflexivity.
Qed.

(** ** ProductService.productReview: the rating that is stored *)

Lemma validating_store_number_paths :
  Invariant.number_paths Scenario.validating_store.
Proof.
  intros c p Hnan. unfold Scenario.validating_store.
  destruct Hnan as [-> | Hnan]; [discriminate |].
  apply List.Exists_exists in Hnan as (r & Hin & Hr).
  replace (existsb _ _) with true; [rewrite orb_true_r; discriminate |].
  symmetry. apply existsb_exists. now exists r.
Qed.

Section ReviewRating.
Variable rejects : list Product.t -> Model.call nat Product.t -> option string.

(** A product that has been given a review whose rating is NaN is not
    saved. *)
Lemma NaN_review_not_saved c product user rating comment :
  Invariant.number_paths rejects ->
  isNaN (Number rating) = true ->
  rejects c (Model.Save (ProductService.reviewed product
                           (ProductService.new_review user rating comment)))
    <> None.
Proof.
  intros Hpaths Hnan. apply Hpaths. right. simpl.
  apply List.Exists_app. right. now constructor.
Qed.

Lemma productReview_saved c c' productId user rating comment :
  ProductService.productReview rejects c productId user rating comment
    = (Fulfilled tt, c') ->
  exists product,
    List.find (Model.has_id Product._id productId) c = Some product /\
    rejects c (Model.Save (ProductService.reviewed product
                             (ProductService.new_review user rating comment)))
      = None.
Proof.
  unfold ProductService.productReview, BaseService.getById, Model.findById, Model.save.
  destruct (rejects c (Model.FindById productId)); [discriminate |].
  destruct (List.find (Model.has_id Product._id productId) c) as [product |];
    [| discriminate].
  destruct (List.find (ProductService.reviewed_by user) (Product.reviews product));
    [discriminate |].
  destruct (rejects c (Model.Save _)) eqn:Hsave; [discriminate |].
  intros _. now exists product.
Qed.

Lemma NaN_review_rejected c productId user rating comment :
  Invariant.number_paths rejects ->
  isNaN (Number rating) = true ->
  exists error,
    ProductService.productReview rejects c productId user rating comment
      = (Rejected error, c).
Proof.
  intros Hpaths Hnan.
  unfold ProductService.productReview, BaseService.getById, Model.findById, Model.save.
  destruct (rejects c (Model.FindById productId)); [now eexists |].
  destruct (List.find (Model.has_id Product._id productId) c) as [product |];
    [| now eexists].
  destruct (List.find (ProductService.reviewed_by user) (Product.reviews product));
    [now eexists |].
  pose proof (NaN_review_not_saved c product user rating comment Hpaths Hnan)
    as Hsave.
  destruct (rejects c (Model.Save _)); [now eexists | contradiction].
Qed.

Lemma NaN_review_mean product user rating comment :
  isNaN (Number rating) = true ->
  Product.rating (ProductService.reviewed product
                    (ProductService.new_review user rating comment)) = NaN.
Proof.
  intros Hnan. simpl. rewrite total_app. simpl.
  now rewrite (isNaN_true _ Hnan), add_NaN, div_NaN.
Qed.

End ReviewRating.

(** C10, as the code has it: on a store whose Number paths reject NaN,
    the review a fulfilled [productReview] has appended to the product
    has the rating [Number(rating)], which is then not NaN; a rating
    argument that [Number] takes to NaN makes the mean computed in
    memory NaN, and the call is rejected and leaves the collection as
    it was. [Number] reads a string of decimal digits as the number it
    denotes, skips white space at both ends (U+2028 as well as a tab
    and a line feed, but not U+200B), reads a sign, an exponent, a
    fraction and a literal in base 16, 8 or 2, and takes anything else
    to NaN. *)
Theorem review_rating_coercion :
  (forall rejects c productId user rating comment,
     Invariant.number_paths rejects ->
     (forall c',
        ProductService.productReview rejects c productId user rating comment
          = (Fulfilled tt, c') ->
        exists product product' review,
          List.find (Model.has_id Product._id productId) c = Some product /\
          List.find (Model.has_id Product._id productId) c' = Some product' /\
          Product.reviews product' = (Product.reviews product ++ [review])%list /\
          Review.rating review = Number rating /\
          isNaN (Number rating) = false) /\
     (isNaN (Number rating) = true ->
      (forall product,
         Product.rating (ProductService.reviewed product
                           (ProductService.new_review user rating comment))
           = NaN) /\
      exists error,
        ProductService.productReview rejects c productId user rating comment
          = (Rejected error, c))) /\
  (forall ds,
     ds <> [] -> Forall (fun d => (d < 10)%N) ds ->
     Number (str (Invariant.numeral ds))
       = of_Z (Z.of_N (Invariant.numeral_value ds))) /\
  Number (str "4") = of_Z 4 /\
  Number (str " 4 ") = of_Z 4 /\
  Number (str Scenario.padded_four) = of_Z 4 /\
  Number (str (String "009" (String "010" "4"))) = of_Z 4 /\
  Number (str (String "226" (String "128" (String "168" "4")))) = of_Z 4 /\
  Number (str (String "226" (String "128" (String "139" "4")))) = NaN /\
  Number (str "-4") = SFopp (of_Z 4) /\
  Number (str "+4") = of_Z 4 /\
  Number (str "4e1") = of_Z 40 /\
  Number (str "4E+2") = of_Z 400 /\
  Number (str "5e-1") = div (of_Z 1) (of_Z 2) /\
  Number (str "4.5") = div (of_Z 9) (of_Z 2) /\
  Number (str ".5") = div (of_Z 1) (of_Z 2) /\
  Number (str "4.") = of_Z 4 /\
  Number (str "0x1F") = of_Z 31 /\
  Number (str "0b101") = of_Z 5 /\
  Number (str "0o17") = of_Z 15 /\
  Number (str "Infinity") = S754_infinity false /\
  Number (str "-Infinity") = S754_infinity true /\
  Number (str "") = S754_zero false /\
  Number (str "   ") = S754_zero false /\
  Number (str "abc") = NaN /\
  Number (str "4abc") = NaN /\
  Number (str "4 5") = NaN /\
  Number (str "4e") = NaN /\
  Number (str ".") = NaN /\
  Number (str "-0x1F") = NaN /\
  Number (str "0x") = NaN /\
  Number undefined = NaN /\
  Number null = S754_zero false /\
  Number (boolean true) = of_Z 1 /\
  Number (num (of_Z 4)) = of_Z 4.
Proof.
  split; [| split; [| repeat split; vm_compute; reflexivity]].
  - intros rejects c productId user rating comment Hpaths. split.
    + intros c' Hdone.
      destruct (productReview_stored rejects _ _ _ _ _ _ Hdone)
        as (product & Hfind & _ & Hstored).
      destruct (productReview_saved rejects _ _ _ _ _ _ Hdone)
        as (saved & Hfind' & Hsave).
      assert (saved = product) by congruence. subst saved.
      exists product, (ProductService.reviewed product
                         (ProductService.new_review user rating comment)),
        (ProductService.new_review user rating comment).
      repeat split; try assumption.
      destruct (isNaN (Number rating)) eqn:Hnan; [| reflexivity].
      now destruct (NaN_review_not_saved rejects c product user rating comment
                      Hpaths Hnan).
    + intros Hnan. split.
      * intros product. now apply NaN_review_mean.
      * now apply NaN_review_rejected.
  - intros ds Hsome Hds. now apply StringToNumber_numeral.
Qed.

Lemma review_rating_coercion_witness :
  Invariant.number_paths Scenario.validating_store /\
  (exists product product' review,
     List.find (Model.has_id Product._id 7) [Sample.mouse] = Some product /\
     List.find (Model.has_id Product._id 7)
       (snd (ProductService.productReview Scenario.validating_store
               [Sample.mouse] 7 (Sample.reviewer 1) (str "4") "Good"))
       = Some product' /\
     Product.reviews product' = (Product.reviews product ++ [review])%list /\
     Review.rating review = Number (str "4") /\
     isNaN (Number (str "4")) = false) /\
  (isNaN (Number (str "abc")) = true /\
   exists error,
     ProductService.productReview Scenario.validating_store [Sample.mouse] 7
       (Sample.reviewer 1) (str "abc") "Good" = (Rejected error, [Sample.mouse])) /\
  ([4; 2]%N <> [] /\
   Number (str (Invariant.numeral [4; 2]%N)) = of_Z 42).
Proof.
  split; [exact validating_store_number_paths |].
  split; [| split; [split |]].
  - apply (proj1 (proj1 review_rating_coercion Scenario.validating_store
                    [Sample.mouse] 7 (Sample.reviewer 1) (str "4") "Good"
                    validating_store_number_paths)).
    vm_compute. reflexivity.
  - reflexivity.
  - apply (proj2 (proj1 review_rating_coercion Scenario.validating_store
                    [Sample.mouse] 7 (Sample.reviewer 1) (str "abc") "Good"
                    validating_store_number_paths)).
    reflexivity.
  - split; [discriminate |].
    apply (proj1 (proj2 review_rating_coercion) [4; 2]%N).
    + discriminate.
    + repeat constructor.
Defined.

(** C10: a rating argument that is not numeric is not stored as NaN:
    the store rejects the save and the collection is as it was. *)
Lemma non_numeric_rating_is_not_stored :
  isNaN (Number (str "abc")) = true /\
  ProductService.productReview Scenario.validating_store [Sample.mouse] 7
    (Sample.reviewer 1) (str "abc") "Good"
    = (Rejected (StoreError
         "Product validation failed: Cast to Number failed for value NaN"),
       [Sample.mouse]).
Proof. split; vm_compute; reflexivity. Qed.

(** ** UserController.register on a store with unique emails *)

Lemma unique_email_store_unique :
  Invariant.unique_email Scenario.unique_email_store.
Proof.
  intros c u v Hin Hemail Hid. unfold Scenario.unique_email_store.
  replace (existsb _ c) with true; [discriminate |].
  symmetry. apply existsb_exists. exists v. split; [exact Hin |].
  apply andb_true_iff. split.
  - now apply String.eqb_eq.
  - apply negb_true_iff. now apply Nat.eqb_neq.
Qed.

Section RegisterUnique.
Import UserController.

Variable isValidEmail : string -> bool.
Variable generateToken : nat -> string.
Variable hash : string -> string.
Variable rejects : list User.t -> Model.call nat User.t -> option string.

(** The lookup of [register] finds a user when one has the email. *)
Lemma find_email (c : list User.t) (existing : User.t) :
  In existing c ->
  exists found,
    List.find (fun u => String.eqb (User.email u) (User.email existing)) c
      = Some found /\
    In found c /\ User.email found = User.email existing.
Proof.
  intros Hin.
  destruct (List.find _ c) as [found |] eqn:Hfind.
  - exists found. apply List.find_some in Hfind as [Hfound Heq].
    repeat split; [exact Hfound | now apply String.eqb_eq].
  - pose proof (List.find_none _ _ Hfind _ Hin) as Hno. simpl in Hno.
    now rewrite String.eqb_refl in Hno.
Qed.

(** The user that [create] builds for an email a stored user has is
    not saved. *)
Lemma duplicate_not_saved (c : list User.t) (existing : User.t) (d : User.data) :
  Invariant.unique_email rejects ->
  In existing c ->
  User.email existing = User.data_email d ->
  rejects c (Model.Save (User.construct hash c d)) <> None.
Proof.
  intros Hunique Hin Hemail. apply (Hunique c _ existing Hin).
  - exact Hemail.
  - pose proof (construct_fresh hash c d) as Hfresh.
    rewrite List.Forall_forall in Hfresh. now apply Hfresh.
Qed.

Lemma register_try_duplicate (fn ln em pw : string) (w : world)
    (existing : User.t) :
  Invariant.unique_email rejects ->
  sent w = None ->
  rejects (users w) Model.FindOne = None ->
  In existing (users w) ->
  User.email existing = em ->
  try_catch (register_try isValidEmail generateToken hash rejects fn ln em pw)
    Invariant.on_error w
    = (Rejected HeadersSentError,
       {| users := users w;
          sent := Some {| status := 409;
                          json := answer errorMessage_user_already_exist |} |}).
Proof.
  intros Hunique Hfresh Hread Hin Hemail. subst em.
  destruct (find_email (users w) existing Hin) as (found & Hfind & _ & _).
  pose proof (duplicate_not_saved (users w) existing
                {| User.data_firstname := fn; User.data_lastname := ln;
                   User.data_email := User.email existing;
                   User.data_password := pw |} Hunique Hin eq_refl) as Hsave.
  destruct w as [c none]. simpl in *. subst none.
  unfold Invariant.on_error, try_catch, register_try, userService_create,
    BaseService.create, Model.save, Model.findOne, mbind, handler_bind, bind,
    mret, handler_ret, ret, reading, writing, res_json.
  simpl. rewrite Hread, Hfind. simpl.
  destruct (isValidEmail (User.email existing)); simpl; [| reflexivity].
  destruct (rejects c (Model.Save _)); [reflexivity | contradiction].
Qed.

End RegisterUnique.

(** C1: on a store that keeps the emails of the users unique, a
    request with its four fields whose email a stored user has is
    answered 409 with the message that the user already exists, and
    the users are left as they were: no second user with that email is
    created. The handler itself goes on after the answer, and rejects
    on finding the response sent. *)
Theorem register_rejects_existing_email
    (isValidEmail : string -> bool) (generateToken : nat -> string)
    (hash : string -> string)
    (rejects : list User.t -> Model.call nat User.t -> option string)
    (b : UserController.body) (fn ln em pw : string)
    (w : UserController.world) (existing : User.t) :
  Invariant.unique_email rejects ->
  UserController.firstname b = Some fn ->
  UserController.lastname b = Some ln ->
  UserController.email b = Some em ->
  UserController.password b = Some pw ->
  Invariant.incomplete (Some b) = None ->
  UserController.sent w = None ->
  rejects (UserController.users w) Model.FindOne = None ->
  In existing (UserController.users w) ->
  User.email existing = em ->
  let (r, w') :=
    UserController.register isValidEmail generateToken hash rejects (Some b) w in
  UserController.sent w'
    = Some {| UserController.status := 409;
              UserController.json :=
                UserController.answer
                  UserController.errorMessage_user_already_exist |} /\
  UserController.users w' = UserController.users w /\
  r = Rejected HeadersSentError.
Proof.
  intros Hunique Hfn Hln Hem Hpw Hcomplete Hfresh Hread Hin Hemail.
  rewrite (register_complete isValidEmail generateToken hash rejects
             b fn ln em pw w Hfn Hln Hem Hpw Hcomplete).
  rewrite (register_try_duplicate isValidEmail generateToken hash rejects
             fn ln em pw w existing Hunique Hfresh Hread Hin Hemail).
  repeat split.
Qed.

Lemma register_rejects_existing_email_witness :
  Invariant.unique_email Scenario.unique_email_store /\
  let (r, w') :=
    UserController.register Sample.isValidEmail Sample.generateToken Sample.hash
      Scenario.unique_email_store
      (Some {| UserController.firstname := Some "Alice";
               UserController.lastname := Some "Martin";
               UserController.email := Some "alice@shop.io";
               UserController.password := Some "secret" |})
      (Sample.start [Sample.alice]) in
  UserController.sent w'
    = Some {| UserController.status := 409;
              UserController.json :=
                UserController.answer
                  UserController.errorMessage_user_already_exist |} /\
  UserController.users w' = [Sample.alice] /\
  r = Rejected HeadersSentError.
Proof.
  split; [exact unique_email_store_unique |].
  apply (register_rejects_existing_email Sample.isValidEmail Sample.generateToken
           Sample.hash Scenario.unique_email_store
           {| UserController.firstname := Some "Alice";
              UserController.lastname := Some "Martin";
              UserController.email := Some "alice@shop.io";
              UserController.password := Some "secret" |}
           "Alice" "Martin" "alice@shop.io" "secret"
           (Sample.start [Sample.alice]) Sample.alice
           unique_email_store_unique);
    try reflexivity.
  now left.
Defined.

(** ** ProductService.topProducts, whatever the order of the store *)

Lemma filter_all {A : Type} (l : list A) : List.filter (fun _ => true) l = l.
Proof. induction l as [| a l IH]; simpl; [reflexivity | now rewrite IH]. Qed.

(** X12: whatever order the store lists the products in, [topProducts]
    rejects with the error of the store when the store rejects the
    query (there is no try/catch) and is fulfilled otherwise with the
    three products the store lists first, no product having anything
    at [range]: three products, or all of them when there are fewer,
    each of them a product of the collection, and their ratings play
    no part. [ProductService.topProducts] is the case of a store that
    lists the products as they are stored. *)
Theorem topProducts_outcome_any_order
    (listing : list Product.t -> list Product.t)
    (rejects : list Product.t -> Model.call nat Product.t -> option string)
    (c : list Product.t) :
  (forall l, Permutation (listing l) l) ->
  Ranking.topProducts listing rejects c
    = match rejects c Model.Find with
      | Some m => Rejected (StoreError m)
      | None => Fulfilled (firstn 3 (listing c))
      end /\
  (forall l,
     Ranking.topProducts listing rejects c = Fulfilled l ->
     length l = Nat.min 3 (length c) /\
     (forall p, In p l -> In p c) /\
     (List.NoDup c -> List.NoDup l)) /\
  ProductService.topProducts rejects c
    = Ranking.topProducts (fun l => l) rejects c.
Proof.
  intros Hlisting.
  assert (Hout : Ranking.topProducts listing rejects c
                 = match rejects c Model.Find with
                   | Some m => Rejected (StoreError m)
                   | None => Fulfilled (firstn 3 (listing c))
                   end).
  { unfold Ranking.topProducts, Model.find.
    destruct (rejects c Model.Find); [reflexivity |].
    now rewrite sort_desc_no_key, filter_all by reflexivity. }
  split; [exact Hout |]. split; [| reflexivity].
  intros l. rewrite Hout.
  destruct (rejects c Model.Find); [discriminate |]. intros [= <-].
  pose proof (Hlisting c) as Hperm.
  assert (Hin : forall p, In p (firstn 3 (listing c)) -> In p (listing c)).
  { intros p Hp. rewrite <- (firstn_skipn 3 (listing c)).
    apply in_or_app. now left. }
  repeat split.
  - now rewrite length_firstn, (Permutation_length Hperm).
  - intros p Hp. apply (Permutation_in p Hperm). now apply Hin.
  - intros Hnodup.
    assert (Hall : List.NoDup (listing c))
      by (apply (Permutation_NoDup (Permutation_sym Hperm) Hnodup)).
    rewrite <- (firstn_skipn 3 (listing c)) in Hall.
    now apply List.NoDup_app_remove_r in Hall.
Qed.

Lemma topProducts_outcome_any_order_witness :
  (forall l : list Product.t, Permutation (rev l) l) /\
  Ranking.topProducts (@rev Product.t) Model.reliable
    [Sample.product 1 "Cable" 1; Sample.product 2 "Laptop" 5;
     Sample.product 3 "Webcam" 3; Sample.product 4 "Screen" 4]
    = Fulfilled [Sample.product 4 "Screen" 4; Sample.product 3 "Webcam" 3;
                 Sample.product 2 "Laptop" 5].
Proof.
  assert (Hrev : forall l : list Product.t, Permutation (rev l) l)
    by (intros l; apply Permutation_sym, Permutation_rev).
  split; [exact Hrev |].
  exact (proj1 (topProducts_outcome_any_order (@rev Product.t) Model.reliable
                  [Sample.product 1 "Cable" 1; Sample.product 2 "Laptop" 5;
                   Sample.product 3 "Webcam" 3; Sample.product 4 "Screen" 4]
                  Hrev)).
Defined.
